(** * PROSE model wrappers: [src/models/transformer_wrappers.py]

    The two wrappers [PROSE_Fluids] and [PROSE_1DPDE] compose five
    sub-modules (embedder, data encoder, symbol encoder, fusion, operator
    decoder) into one forward pass.  The sub-modules live in other files
    ([embedder.py], [transformer.py]); here a call to one of them is an
    operation of a small free monad, so that the wrappers are programs over
    those operations and every implementation of the sub-modules (stateful
    or not, raising or not) interprets them. *)

From Stdlib Require Import Ascii String.
From stdpp Require Import base strings pretty gmap list.

Open Scope string_scope.

(** ** Python values *)

(** [torch.Tensor] is taken as a parameter: all the wrappers ask of a tensor
    is its [size()], the list of its dimensions. *)
Class TensorLike (Tensor : Type) := shape : Tensor → list nat.

(** Exceptions, by class; the generic [Exception] carries its message. *)
Inductive exn :=
| PyException (msg : string)
| TypeError
| ValueError
| AttributeError
| IndexError
| RuntimeError.

Inductive res (A : Type) :=
| Ok (a : A)
| Err (e : exn).
Arguments Ok {A} a.
Arguments Err {A} e.

Section python.
Context {Tensor : Type} `{!TensorLike Tensor}.

(** What a keyword argument of [fwd] can hold. *)
Inductive value :=
| VNone
| VTensor (t : Tensor).

(** What [fwd] returns: the field tensor, or a dictionary of tensors. *)
Inductive pyobj :=
| ObjTensor (t : Tensor)
| ObjDict (d : gmap string Tensor).

(** The sub-module calls made by the wrappers, indexed by the type of what
    they return. *)
Inductive call : Type → Type :=
| EmbedderEncode (data times : value) : call Tensor
| DataEncoder (x : Tensor) : call Tensor
| SymbolEncoder (symbol_input src_key_padding_mask : value) : call Tensor
| Fusion (x0 x1 : Tensor) (key_padding_mask0 key_padding_mask1 : value)
    : call (Tensor * value)
| GetQueryEmb (times : value) : call Tensor
| DataDecoder (src query_emb : Tensor) (src_key_padding_mask : value)
    : call Tensor
| EmbedderDecode (data_output : Tensor) : call Tensor.

(** ** Programs over sub-module calls *)

Inductive prog (A : Type) : Type :=
| Ret (a : A)
| Raise (e : exn)
| Call {X : Type} (c : call X) (k : X → prog A).
Arguments Ret {A} a.
Arguments Raise {A} e.
Arguments Call {A X} c k.

Fixpoint bind {A B} (p : prog A) (f : A → prog B) : prog B :=
  match p with
  | Ret a => f a
  | Raise e => Raise e
  | Call c k => Call c (λ x, bind (k x) f)
  end.

#[export] Instance prog_ret : MRet prog := λ A, Ret.
#[export] Instance prog_bind : MBind prog := λ A B f p, bind p f.

Definition invoke {X} (c : call X) : prog X := Call c Ret.

(** [v.size()]: [None] has no such attribute. *)
Definition size_of (v : value) : prog (list nat) :=
  match v with
  | VNone => Raise AttributeError
  | VTensor t => Ret (shape t)
  end.

(** [a1, ..., an = l]: unpacking into [n] names needs exactly [n] items. *)
Definition unpack (n : nat) (l : list nat) : prog (list nat) :=
  if decide (length l = n) then Ret l else Raise ValueError.

(** [t.size(i)] *)
Definition size_at (t : Tensor) (i : nat) : prog nat :=
  match shape t !! i with
  | Some n => Ret n
  | None => Raise IndexError
  end.

(** ** Keyword arguments

    Calling [self.fwd] on the unpacked [kwargs] dictionary binds it to the
    parameters
    [data_input, input_times, output_times, symbol_input,
    symbol_padding_mask=None]; both wrappers declare the same list. *)

Definition fwd_params : gset string :=
  {[ "data_input"; "input_times"; "output_times"; "symbol_input";
     "symbol_padding_mask" ]}.

Definition fwd_args : Type := value * value * value * value * value.

Definition bind_kwargs (kwargs : gmap string value) : prog fwd_args :=
  if decide (dom kwargs ⊆ fwd_params) then
    match kwargs !! "data_input", kwargs !! "input_times",
          kwargs !! "output_times", kwargs !! "symbol_input" with
    | Some data_input, Some input_times, Some output_times, Some symbol_input =>
        Ret (data_input, input_times, output_times, symbol_input,
             default VNone (kwargs !! "symbol_padding_mask"))
    | _, _, _, _ => Raise TypeError
    end
  else Raise TypeError.

(** ** Running a program against an implementation of the sub-modules

    A handler answers every call from a state of its own (parameters,
    random generator of the dropout layers, ...) and may raise. *)

Definition handler (W : Type) : Type := ∀ X, call X → W → res X * W.

Inductive event :=
| Ev {X : Type} (c : call X) (r : res X).

Fixpoint run {W A} (h : handler W) (p : prog A) (w : W) : res A * W :=
  match p with
  | Ret a => (Ok a, w)
  | Raise e => (Err e, w)
  | Call c k =>
      match h _ c w with
      | (Ok x, w') => run h (k x) w'
      | (Err e, w') => (Err e, w')
      end
  end.

Fixpoint trace {W A} (h : handler W) (p : prog A) (w : W) : list event :=
  match p with
  | Ret _ | Raise _ => []
  | Call c k =>
      match h _ c w with
      | (Ok x, w') => Ev c (Ok x) :: trace h (k x) w'
      | (Err e, _) => [Ev c (Err e)]
      end
  end.

(** The stages of a pass, as the wrappers name them. *)
Inductive stage :=
| Embed | EncodeData | EncodeSymbol | Fuse | BuildQueries | Decode
| InverseEmbed.

Definition stage_of_call {X} (c : call X) : stage :=
  match c with
  | EmbedderEncode _ _ => Embed
  | DataEncoder _ => EncodeData
  | SymbolEncoder _ _ => EncodeSymbol
  | Fusion _ _ _ _ => Fuse
  | GetQueryEmb _ => BuildQueries
  | DataDecoder _ _ _ => Decode
  | EmbedderDecode _ => InverseEmbed
  end.

Definition stage_of (e : event) : stage :=
  match e with Ev c _ => stage_of_call c end.

Definition stages {W A} (h : handler W) (p : prog A) (w : W) : list stage :=
  stage_of <$> trace h p w.

End python.

Arguments value : clear implicits.
Arguments pyobj : clear implicits.
Arguments call : clear implicits.
Arguments prog : clear implicits.
Arguments event : clear implicits.
Arguments handler : clear implicits.
Arguments fwd_args : clear implicits.
Arguments VNone {Tensor}.
Arguments VTensor {Tensor} t.
Arguments ObjTensor {Tensor} t.
Arguments ObjDict {Tensor} d.
Arguments Ret {Tensor A} a.
Arguments Raise {Tensor A} e.
Arguments Call {Tensor A X} c k.
Arguments Ev {Tensor X} c r.

(** ** Parameters of a module and their report

    [summary] asks each sub-module for its parameters and adds up the
    number of elements of those that are trained. *)

Record parameter := Param {
  numel : N;
  requires_grad : bool
}.

(** [sum([p.numel() for p in parameters if p.requires_grad])] *)
Definition trainable (parameters : list parameter) : N :=
  foldl N.add 0%N (numel <$> filter (λ p, Is_true (requires_grad p)) parameters).

(** The format [{n:,}] of a count: its decimal digits with a comma before
    every group of three digits, counted from the right. *)
Fixpoint group_thousands (rev_digits : list ascii) : list ascii :=
  match rev_digits with
  | a :: b :: c :: ((_ :: _) as rest) =>
      a :: b :: c :: ","%char :: group_thousands rest
  | _ => rev_digits
  end.

Definition format_thousands (n : N) : string :=
  string_of_list_ascii
    (rev (group_thousands (rev (list_ascii_of_string (pretty n))))).

(** The escapes [\n] and [\t]. *)
Definition newline : string := String "010"%char "".
Definition tab : string := String "009"%char "".

(** ** class PROSE_Fluids *)

Module PROSE_Fluids.
Section wrapper.
Context {Tensor : Type} `{!TensorLike Tensor}.

(** The sub-modules [__init__] builds, each as the list of its parameters;
    the symbol encoder and the fusion are commented out. *)
Record modules := Modules {
  embedder : list parameter;
  data_encoder : list parameter;
  data_decoder : list parameter
}.

Definition summary (self : modules) : string :=
  let s := newline in
  let s := s +:+ (tab +:+ "Embedder:        " +:+
                  format_thousands (trainable (embedder self)) +:+ newline) in
  let s := s +:+ (tab +:+ "Data Encoder:    " +:+
                  format_thousands (trainable (data_encoder self)) +:+ newline) in
  let s := s +:+ (tab +:+ "Data Decoder:    " +:+
                  format_thousands (trainable (data_decoder self))) in
  s.

Definition fwd (data_input input_times output_times symbol_input
                symbol_padding_mask : value Tensor)
  : prog Tensor (pyobj Tensor) :=
  sz ← size_of data_input;
  _ ← unpack 5 sz;
  (* Step 1: prepare data input *)
  data_input ← invoke (EmbedderEncode data_input input_times);
  data_len ← size_at data_input 1;
  (* Step 2: encode; the symbol encoder and the fusion are commented out *)
  data_encoded ← invoke (DataEncoder data_input);
  let fused := data_encoded in
  let fused_mask := VNone in
  (* Step 3: decode data *)
  query_emb ← invoke (GetQueryEmb output_times);
  data_output ← invoke (DataDecoder fused query_emb fused_mask);
  data_output ← invoke (EmbedderDecode data_output);
  mret (ObjTensor data_output).

(** [self.fwd] called on the unpacked keyword dictionary. *)
Definition fwd_kw (kwargs : gmap string (value Tensor))
  : prog Tensor (pyobj Tensor) :=
  '(data_input, input_times, output_times, symbol_input,
    symbol_padding_mask) ← bind_kwargs kwargs;
  fwd data_input input_times output_times symbol_input symbol_padding_mask.

Definition generate (kwargs : gmap string (value Tensor))
  : prog Tensor (pyobj Tensor) :=
  fwd_kw kwargs.

Definition forward (mode : string) (kwargs : gmap string (value Tensor))
  : prog Tensor (pyobj Tensor) :=
  if decide (mode = "fwd") then fwd_kw kwargs
  else if decide (mode = "generate") then generate kwargs
  else Raise (PyException ("Unknown mode: " +:+ mode)).

End wrapper.
End PROSE_Fluids.

(** ** class PROSE_1DPDE *)

Module PROSE_1DPDE.
Section wrapper.
Context {Tensor : Type} `{!TensorLike Tensor}.

(** The sub-modules [__init__] builds, each as the list of its parameters. *)
Record modules := Modules {
  embedder : list parameter;
  data_encoder : list parameter;
  symbol_encoder : list parameter;
  fusion : list parameter;
  data_decoder : list parameter
}.

Definition summary (self : modules) : string :=
  let s := newline in
  let s := s +:+ (tab +:+ "Embedder:        " +:+
                  format_thousands (trainable (embedder self)) +:+ newline) in
  let s := s +:+ (tab +:+ "Data Encoder:    " +:+
                  format_thousands (trainable (data_encoder self)) +:+ newline) in
  let s := s +:+ (tab +:+ "Symbol Encoder:  " +:+
                  format_thousands (trainable (symbol_encoder self)) +:+ newline) in
  let s := s +:+ (tab +:+ "Fusion:          " +:+
                  format_thousands (trainable (fusion self)) +:+ newline) in
  let s := s +:+ (tab +:+ "Data Decoder:    " +:+
                  format_thousands (trainable (data_decoder self))) in
  s.

Definition fwd (data_input input_times output_times symbol_input
                symbol_padding_mask : value Tensor)
  : prog Tensor (pyobj Tensor) :=
  let output : gmap string Tensor := ∅ in
  sz ← size_of data_input;
  _ ← unpack 4 sz;
  (* Step 1: prepare data input *)
  data_input ← invoke (EmbedderEncode data_input input_times);
  data_len ← size_at data_input 1;
  let output := <["data_embeded" := data_input]> output in
  (* Step 2: encode + fusion *)
  data_encoded ← invoke (DataEncoder data_input);
  symbol_encoded ← invoke (SymbolEncoder symbol_input symbol_padding_mask);
  '(fused, fused_mask) ←
    invoke (Fusion data_encoded symbol_encoded VNone symbol_padding_mask);
  let output := <["data_encoded" := data_encoded]> output in
  let output := <["symbol_encoded" := symbol_encoded]> output in
  let output := <["fused" := fused]> output in
  (* Step 3: decode data *)
  query_emb ← invoke (GetQueryEmb output_times);
  data_output ← invoke (DataDecoder fused query_emb fused_mask);
  data_output ← invoke (EmbedderDecode data_output);
  let output := <["data_output" := data_output]> output in
  mret (ObjDict output).

Definition fwd_kw (kwargs : gmap string (value Tensor))
  : prog Tensor (pyobj Tensor) :=
  '(data_input, input_times, output_times, symbol_input,
    symbol_padding_mask) ← bind_kwargs kwargs;
  fwd data_input input_times output_times symbol_input symbol_padding_mask.

Definition generate (kwargs : gmap string (value Tensor))
  : prog Tensor (pyobj Tensor) :=
  fwd_kw kwargs.

Definition forward (mode : string) (kwargs : gmap string (value Tensor))
  : prog Tensor (pyobj Tensor) :=
  if decide (mode = "fwd") then fwd_kw kwargs
  else if decide (mode = "generate") then generate kwargs
  else Raise (PyException ("Unknown mode: " +:+ mode)).

End wrapper.
End PROSE_1DPDE.

(** ** Shapes of the sub-modules

    [embedder.py] and [transformer.py] are not part of this development.
    What the wrappers' comments and the specification say of the shapes
    their modules take and return is collected here, once as a contract on
    a handler and once as a handler on tensors reduced to their shape. *)

(** [x_num] and [max_output_dim] are read from [data_config] and handed to
    the embedder by [__init__]; [patch_num] and [dim] belong to
    [config.embedder]. *)
Record config := Config {
  x_num : nat;
  max_output_dim : nat;
  patch_num : nat;
  dim : nat
}.

Section shapes.
Context {Tensor : Type} `{!TensorLike Tensor}.
Context (cfg : config).
(** Number of space dimensions: 2 for [PROSE_Fluids], 1 for [PROSE_1DPDE]. *)
Context (sd : nat).

Definition shape_of (v : value Tensor) : option (list nat) :=
  match v with
  | VNone => None
  | VTensor t => Some (shape t)
  end.

(** Modelled from the spec: the field tensor (missing: [embedder.py]) is
    batch × time × spatial-grid × channel. *)
Definition field_shape (bs len : nat) : list nat :=
  bs :: len :: replicate sd (x_num cfg) ++ [max_output_dim cfg].

(** Modelled from the spec: the time tensor (missing: [embedder.py]) is
    batch × time × 1. *)
Definition time_shape (bs len : nat) : list nat := [bs; len; 1].

(** Modelled from the spec: a latent sequence (missing: [embedder.py],
    [transformer.py]) is batch × sequence-length × hidden-dim, with the
    hidden dimension constant across modules. *)
Definition latent_shape (bs len : nat) : list nat := [bs; len; dim cfg].

(** Modelled from the spec: the sequence length (missing: [embedder.py]) is
    spatial patch count × time steps; there are [patch_num] patches along
    each space dimension. *)
Definition patch_count : nat := patch_num cfg ^ sd.
Definition seq_len (steps : nat) : nat := steps * patch_count.

(** Modelled from the spec: the optional padding mask (missing:
    [transformer.py]) is either absent or has the batch × length of the
    sequence it masks. *)
Definition mask_ok (m : value Tensor) (bs len : nat) : Prop :=
  match m with
  | VNone => True
  | VTensor t => shape t = [bs; len]
  end.

(** Modelled from the spec: the shapes of the embedder, the data encoder and
    the operator decoder (missing: [embedder.py], [transformer.py]), as the
    comments of [fwd] give them for well-shaped arguments. *)
Record data_modules_spec {W} (h : handler Tensor W) : Prop := {
  encode_spec : ∀ data times bs input_len w,
    shape_of data = Some (field_shape bs input_len) →
    shape_of times = Some (time_shape bs input_len) →
    ∃ e w', h _ (EmbedderEncode data times) w = (Ok e, w') ∧
            shape e = latent_shape bs (seq_len input_len);
  data_encoder_spec : ∀ x bs len w,
    shape x = latent_shape bs len →
    ∃ y w', h _ (DataEncoder x) w = (Ok y, w') ∧
            shape y = latent_shape bs len;
  get_query_emb_spec : ∀ times bs output_len w,
    shape_of times = Some (time_shape bs output_len) →
    ∃ q w', h _ (GetQueryEmb times) w = (Ok q, w') ∧
            shape q = latent_shape bs (seq_len output_len);
  data_decoder_spec : ∀ src q m bs src_len query_len w,
    shape src = latent_shape bs src_len →
    shape q = latent_shape bs query_len →
    mask_ok m bs src_len →
    ∃ y w', h _ (DataDecoder src q m) w = (Ok y, w') ∧
            shape y = latent_shape bs query_len;
  decode_spec : ∀ y bs output_len w,
    shape y = latent_shape bs (seq_len output_len) →
    ∃ out w', h _ (EmbedderDecode y) w = (Ok out, w') ∧
              shape out = field_shape bs output_len
}.

(** Modelled from the spec: the shapes of the symbol encoder and of the
    fusion (missing: [transformer.py]); the fused sequence is the data
    sequence followed by the symbol sequence. *)
Record symbol_modules_spec {W} (h : handler Tensor W) : Prop := {
  symbol_encoder_spec : ∀ sym m bs symbol_len w,
    shape_of sym = Some [bs; symbol_len] →
    mask_ok m bs symbol_len →
    ∃ s w', h _ (SymbolEncoder sym m) w = (Ok s, w') ∧
            shape s = latent_shape bs symbol_len;
  fusion_spec : ∀ x0 x1 m1 bs len0 len1 w,
    shape x0 = latent_shape bs len0 →
    shape x1 = latent_shape bs len1 →
    mask_ok m1 bs len1 →
    ∃ f fm w', h _ (Fusion x0 x1 VNone m1) w = (Ok (f, fm), w') ∧
               shape f = latent_shape bs (len0 + len1) ∧
               mask_ok fm bs (len0 + len1)
}.

End shapes.

(** ** The sub-modules on shapes alone

    A tensor reduced to its shape, and sub-modules that compute the shape of
    their result and raise when the shapes of their arguments do not fit,
    as the tensor library would. *)

Record shape_tensor := ShapeOnly { dims : list nat }.

#[export] Instance shape_tensor_like : TensorLike shape_tensor := dims.

Section shape_modules.
Context (cfg : config) (sd : nat).

Definition check_mask (m : value shape_tensor) (bs len : nat) : bool :=
  match m with
  | VNone => true
  | VTensor t => bool_decide (dims t = [bs; len])
  end.

Definition as_latent (t : shape_tensor) : option (nat * nat) :=
  match dims t with
  | [bs; len; d] => if decide (d = dim cfg) then Some (bs, len) else None
  | _ => None
  end.

(** Modelled from the spec: [embedder.encode] (missing: [embedder.py]). *)
Definition embedder_encode (data times : value shape_tensor)
  : res shape_tensor :=
  match data, times with
  | VTensor d, VTensor t =>
      match dims d with
      | bs :: len :: _ =>
          if bool_decide (dims d = field_shape cfg sd bs len ∧
                          dims t = time_shape bs len)
          then Ok (ShapeOnly (latent_shape cfg bs (seq_len cfg sd len)))
          else Err RuntimeError
      | _ => Err RuntimeError
      end
  | _, _ => Err AttributeError
  end.

(** Modelled from the spec: [embedder.decode] (missing: [embedder.py]). *)
Definition embedder_decode (y : shape_tensor) : res shape_tensor :=
  match as_latent y with
  | Some (bs, len) =>
      if bool_decide (patch_count cfg sd ≠ 0 ∧
                      len `mod` patch_count cfg sd = 0)
      then Ok (ShapeOnly (field_shape cfg sd bs (len `div` patch_count cfg sd)))
      else Err RuntimeError
  | None => Err RuntimeError
  end.

(** Modelled from the spec: the data encoder (missing: [transformer.py]). *)
Definition data_encoder (x : shape_tensor) : res shape_tensor :=
  match as_latent x with
  | Some (bs, len) => Ok (ShapeOnly (latent_shape cfg bs len))
  | None => Err RuntimeError
  end.

(** Modelled from the spec: the symbol encoder (missing: [transformer.py]). *)
Definition symbol_encoder (sym m : value shape_tensor) : res shape_tensor :=
  match sym with
  | VTensor s =>
      match dims s with
      | [bs; len] =>
          if check_mask m bs len
          then Ok (ShapeOnly (latent_shape cfg bs len))
          else Err RuntimeError
      | _ => Err RuntimeError
      end
  | VNone => Err AttributeError
  end.

(** Modelled from the spec: the fusion (missing: [transformer.py]). *)
Definition fusion (x0 x1 : shape_tensor) (m0 m1 : value shape_tensor)
  : res (shape_tensor * value shape_tensor) :=
  match as_latent x0, as_latent x1 with
  | Some (bs, len0), Some (bs', len1) =>
      if bool_decide (bs = bs') && check_mask m0 bs len0
         && check_mask m1 bs len1
      then Ok (ShapeOnly (latent_shape cfg bs (len0 + len1)),
               match m0, m1 with
               | VNone, VNone => VNone
               | _, _ => VTensor (ShapeOnly [bs; len0 + len1])
               end)
      else Err RuntimeError
  | _, _ => Err RuntimeError
  end.

(** Modelled from the spec: [data_decoder.get_query_emb] (missing:
    [transformer.py]). *)
Definition get_query_emb (times : value shape_tensor) : res shape_tensor :=
  match times with
  | VTensor t =>
      match dims t with
      | [bs; len; 1] =>
          Ok (ShapeOnly (latent_shape cfg bs (seq_len cfg sd len)))
      | _ => Err RuntimeError
      end
  | VNone => Err AttributeError
  end.

(** Modelled from the spec: the operator decoder (missing:
    [transformer.py]). *)
Definition data_decoder (src q : shape_tensor) (m : value shape_tensor)
  : res shape_tensor :=
  match as_latent src, as_latent q with
  | Some (bs, src_len), Some (bs', query_len) =>
      if bool_decide (bs = bs') && check_mask m bs src_len
      then Ok (ShapeOnly (latent_shape cfg bs query_len))
      else Err RuntimeError
  | _, _ => Err RuntimeError
  end.

(** The state of this handler counts the calls it has answered. *)
Definition shape_modules : handler shape_tensor nat := λ X c w,
  (match c in call _ T return res T with
   | EmbedderEncode data times => embedder_encode data times
   | DataEncoder x => data_encoder x
   | SymbolEncoder sym m => symbol_encoder sym m
   | Fusion x0 x1 m0 m1 => fusion x0 x1 m0 m1
   | GetQueryEmb times => get_query_emb times
   | DataDecoder src q m => data_decoder src q m
   | EmbedderDecode y => embedder_decode y
   end, S w).

End shape_modules.

(** A small configuration and small inputs to run the wrappers on. *)
Module Sample.

Definition cfg : config :=
  {| x_num := 4; max_output_dim := 3; patch_num := 2; dim := 8 |}.

Definition field2d : value shape_tensor := VTensor (ShapeOnly [2; 5; 4; 4; 3]).
Definition field1d : value shape_tensor := VTensor (ShapeOnly [2; 5; 4; 3]).
Definition input_times : value shape_tensor := VTensor (ShapeOnly [2; 5; 1]).
Definition output_times : value shape_tensor := VTensor (ShapeOnly [2; 7; 1]).
Definition symbol_input : value shape_tensor := VTensor (ShapeOnly [2; 6]).
Definition symbol_mask : value shape_tensor := VTensor (ShapeOnly [2; 6]).

Definition kwargs (data : value shape_tensor)
  : gmap string (value shape_tensor) :=
  <["data_input" := data]>
    (<["input_times" := input_times]>
       (<["output_times" := output_times]>
          (<["symbol_input" := symbol_input]> ∅))).

(** The shape-only sub-modules of the two wrappers. *)
Definition modules2d : handler shape_tensor nat := shape_modules cfg 2.
Definition modules1d : handler shape_tensor nat := shape_modules cfg 1.

(** Sub-modules whose every result is a vector. *)
Definition vector_modules : handler shape_tensor nat := λ X c w,
  (match c in call _ T return res T with
   | Fusion _ _ _ _ => Ok (ShapeOnly [3], VNone)
   | EmbedderEncode _ _ | DataEncoder _ | SymbolEncoder _ _
   | GetQueryEmb _ | DataDecoder _ _ _ | EmbedderDecode _ =>
       Ok (ShapeOnly [3])
   end, S w).

(** Sub-modules of a model, by their parameters. *)
Definition fluids_modules : PROSE_Fluids.modules :=
  {| PROSE_Fluids.embedder := [Param 1200 true; Param 50 false];
     PROSE_Fluids.data_encoder := [];
     PROSE_Fluids.data_decoder := [Param 1000000 true; Param 1 true] |}.

End Sample.

(** ** Complete passes *)

(** The message of the dispatch's exception holds the mode. *)
Definition unknown_mode (mode : string) : exn :=
  PyException ("Unknown mode: " +:+ mode).

Section pass_definitions.
Context {Tensor : Type} `{!TensorLike Tensor} {W : Type}.
Context (h : handler Tensor W).
Implicit Types (d it ot s m : value Tensor) (w : W).

(** A complete pass of [PROSE_Fluids.fwd]: the tensors exchanged with the
    sub-modules, in the order of the calls. *)
Definition fluids_pass d it ot w (e enc q y out : Tensor) w' : Prop :=
  ∃ w1 w2 w3 w4,
    (∃ sz, shape_of d = Some sz ∧ length sz = 5) ∧
    h _ (EmbedderEncode d it) w = (Ok e, w1) ∧
    is_Some (shape e !! 1) ∧
    h _ (DataEncoder e) w1 = (Ok enc, w2) ∧
    h _ (GetQueryEmb ot) w2 = (Ok q, w3) ∧
    h _ (DataDecoder enc q VNone) w3 = (Ok y, w4) ∧
    h _ (EmbedderDecode y) w4 = (Ok out, w').

Definition fluids_trace d it ot (e enc q y out : Tensor)
  : list (event Tensor) :=
  [ Ev (EmbedderEncode d it) (Ok e);
    Ev (DataEncoder e) (Ok enc);
    Ev (GetQueryEmb ot) (Ok q);
    Ev (DataDecoder enc q VNone) (Ok y);
    Ev (EmbedderDecode y) (Ok out) ].

(** A complete pass of [PROSE_1DPDE.fwd]. *)
Definition pde_pass d it ot s m w (e enc senc fused : Tensor)
    (fused_mask : value Tensor) (q y out : Tensor) w' : Prop :=
  ∃ w1 w2 w3 w4 w5 w6,
    (∃ sz, shape_of d = Some sz ∧ length sz = 4) ∧
    h _ (EmbedderEncode d it) w = (Ok e, w1) ∧
    is_Some (shape e !! 1) ∧
    h _ (DataEncoder e) w1 = (Ok enc, w2) ∧
    h _ (SymbolEncoder s m) w2 = (Ok senc, w3) ∧
    h _ (Fusion enc senc VNone m) w3 = (Ok (fused, fused_mask), w4) ∧
    h _ (GetQueryEmb ot) w4 = (Ok q, w5) ∧
    h _ (DataDecoder fused q fused_mask) w5 = (Ok y, w6) ∧
    h _ (EmbedderDecode y) w6 = (Ok out, w').

Definition pde_trace d it ot s m (e enc senc fused : Tensor)
    (fused_mask : value Tensor) (q y out : Tensor) : list (event Tensor) :=
  [ Ev (EmbedderEncode d it) (Ok e);
    Ev (DataEncoder e) (Ok enc);
    Ev (SymbolEncoder s m) (Ok senc);
    Ev (Fusion enc senc VNone m) (Ok (fused, fused_mask));
    Ev (GetQueryEmb ot) (Ok q);
    Ev (DataDecoder fused q fused_mask) (Ok y);
    Ev (EmbedderDecode y) (Ok out) ].

(** The dictionary [PROSE_1DPDE.fwd] fills on its way. *)
Definition pde_output (e enc senc fused out : Tensor) : gmap string Tensor :=
  <["data_output" := out]>
    (<["fused" := fused]>
       (<["symbol_encoded" := senc]>
          (<["data_encoded" := enc]>
             (<["data_embeded" := e]> ∅)))).

End pass_definitions.

Definition fluids_stages : list stage :=
  [Embed; EncodeData; BuildQueries; Decode; InverseEmbed].

Definition pde_stages : list stage :=
  [Embed; EncodeData; EncodeSymbol; Fuse; BuildQueries; Decode; InverseEmbed].

Definition pde_keys : gset string :=
  {[ "data_embeded"; "data_encoded"; "symbol_encoded"; "fused";
     "data_output" ]}.

(** The lengths of the contexts handed to the decoder during a pass. *)
Definition decoder_src {Tensor} (e : event Tensor) : option Tensor :=
  match e with
  | Ev c _ =>
      match c with
      | DataDecoder src _ _ => Some src
      | _ => None
      end
  end.

Definition decoder_context_lengths {Tensor} `{!TensorLike Tensor} {W A}
    (h : handler Tensor W) (p : prog Tensor A) (w : W) : list nat :=
  omap (λ e, src ← decoder_src e; shape src !! 1) (trace h p w).

(** ** The two variants side by side *)

(** Following the specification: one pipeline, embed → encode(data)
    [+ encode(symbol) → fuse] → build decoder queries from output times →
    decode → inverse-embed, of which a variant fixes the number of
    dimensions of the data it unpacks, whether the symbol path is active,
    and whether the intermediate tensors are returned along with the
    field. *)
Record variant := Variant {
  data_rank : nat;
  symbol_path : bool;
  returns_dict : bool
}.

Definition fluids_variant : variant :=
  {| data_rank := 5; symbol_path := false; returns_dict := false |}.

Definition pde_variant : variant :=
  {| data_rank := 4; symbol_path := true; returns_dict := true |}.

Section variants.
Context {Tensor : Type} `{!TensorLike Tensor}.
Implicit Types (d it ot s m : value Tensor).

Definition pipeline_result (v : variant) (e enc : Tensor)
    (senc : option Tensor) (fused out : Tensor) : pyobj Tensor :=
  if returns_dict v then
    ObjDict
      (<["data_output" := out]>
         (<["fused" := fused]>
            (from_option (λ x, <["symbol_encoded" := x]>) id senc
               (<["data_encoded" := enc]> (<["data_embeded" := e]> ∅)))))
  else ObjTensor out.

Definition pipeline (v : variant) d it ot s m : prog Tensor (pyobj Tensor) :=
  sz ← size_of d;
  _ ← unpack (data_rank v) sz;
  e ← invoke (EmbedderEncode d it);
  _ ← size_at e 1;
  enc ← invoke (DataEncoder e);
  '(senc, fused, fused_mask) ←
    (if symbol_path v then
       senc ← invoke (SymbolEncoder s m);
       '(fused, fused_mask) ← invoke (Fusion enc senc VNone m);
       mret (Some senc, fused, fused_mask)
     else mret (None, enc, VNone));
  q ← invoke (GetQueryEmb ot);
  y ← invoke (DataDecoder fused q fused_mask);
  out ← invoke (EmbedderDecode y);
  mret (pipeline_result v e enc senc fused out).

(** The dispatch of [forward], over the [fwd] of either class. *)
Definition dispatch
    (fwd : value Tensor → value Tensor → value Tensor → value Tensor →
           value Tensor → prog Tensor (pyobj Tensor))
    (mode : string) (kwargs : gmap string (value Tensor))
  : prog Tensor (pyobj Tensor) :=
  if decide (mode = "fwd" ∨ mode = "generate") then
    '(d, it, ot, s, m) ← bind_kwargs kwargs; fwd d it ot s m
  else Raise (PyException ("Unknown mode: " +:+ mode)).

(** A pass rejects its arguments when it raises before any sub-module is
    called. *)
Definition rejects {A} (p : prog Tensor A) : Prop := ∃ e, p = Raise e.

(** The two variants accept a call alike when both or neither reject it. *)
Definition accept_alike d it ot s m : Prop :=
  rejects (PROSE_Fluids.fwd d it ot s m) ↔
  rejects (PROSE_1DPDE.fwd d it ot s m).

End variants.

(** ** Further notions for the properties of [fwd] and [summary] *)

(** The parameters of [fwd] that have no default. *)
Definition fwd_required : gset string :=
  {[ "data_input"; "input_times"; "output_times"; "symbol_input" ]}.

(** The exception of the last sub-module call of a run, when it raised. *)
Definition last_error {Tensor} (tr : list (event Tensor)) : option exn :=
  match last tr with
  | Some (Ev _ (Err e)) => Some e
  | _ => None
  end.

(** Where the exception [e] of a pass that unpacks [rank] dimensions comes
    from: the unpacking of [data_input.size()], before any call; the
    [size(1)] of the embedding, after one call; or the sub-module called
    last. *)
Definition error_origin {Tensor} `{!TensorLike Tensor} {W} (rank : nat)
    (d it : value Tensor) (tr : list (event Tensor)) (e : exn) (w w' : W)
  : Prop :=
  (tr = [] ∧ w' = w ∧
   ((d = VNone ∧ e = AttributeError) ∨
    (∃ t, d = VTensor t ∧ length (shape t) ≠ rank ∧ e = ValueError))) ∨
  (∃ x, tr = [Ev (EmbedderEncode d it) (Ok x)] ∧ shape x !! 1 = None ∧
        e = IndexError) ∨
  last_error tr = Some e.


(** The lines of a text: [s.split("\n")]. *)
Fixpoint split_lines (cur : list ascii) (l : list ascii) : list string :=
  match l with
  | [] => [string_of_list_ascii (rev cur)]
  | c :: l =>
      if decide (c = "010"%char)
      then string_of_list_ascii (rev cur) :: split_lines [] l
      else split_lines (c :: cur) l
  end.

Definition lines (s : string) : list string :=
  split_lines [] (list_ascii_of_string s).

(** Taking the separators out of the groups again. *)
Fixpoint ungroup_thousands (l : list ascii) : list ascii :=
  match l with
  | a :: b :: c :: _ :: rest => a :: b :: c :: ungroup_thousands rest
  | _ => l
  end.

(** * Properties *)

(** ** The mode dispatch *)

Section dispatch.
Context {Tensor : Type} `{!TensorLike Tensor}.
Implicit Types kwargs : gmap string (value Tensor).

(** Binding the keyword arguments either fails with a [TypeError] or yields
    the five arguments. *)
Lemma bind_kwargs_cases kwargs :
  bind_kwargs kwargs = Raise TypeError ∨
  ∃ d it ot s m, bind_kwargs kwargs = Ret (d, it, ot, s, m).
Proof.
  unfold bind_kwargs. case_decide; [|by left].
  destruct (kwargs !! "data_input"); [|by left].
  destruct (kwargs !! "input_times"); [|by left].
  destruct (kwargs !! "output_times"); [|by left].
  destruct (kwargs !! "symbol_input"); [|by left].
  right. eauto 6.
Qed.

(** Neither [fwd] raises the generic [Exception] itself: what they raise
    before any sub-module is called is an [AttributeError] or a
    [ValueError]. *)
Lemma fluids_fwd_not_generic d it ot s m msg :
  PROSE_Fluids.fwd (Tensor:=Tensor) d it ot s m ≠ Raise (PyException msg).
Proof.
  unfold PROSE_Fluids.fwd. destruct d as [|t]; [done|]. simpl.
  unfold unpack. case_decide; done.
Qed.

Lemma pde_fwd_not_generic d it ot s m msg :
  PROSE_1DPDE.fwd (Tensor:=Tensor) d it ot s m ≠ Raise (PyException msg).
Proof.
  unfold PROSE_1DPDE.fwd. destruct d as [|t]; [done|]. simpl.
  unfold unpack. case_decide; done.
Qed.

Lemma fluids_fwd_kw_not_generic kwargs msg :
  PROSE_Fluids.fwd_kw kwargs ≠ Raise (PyException msg).
Proof.
  unfold PROSE_Fluids.fwd_kw.
  destruct (bind_kwargs_cases kwargs) as [->|(d & it & ot & s & m & ->)];
    [done|]. apply fluids_fwd_not_generic.
Qed.

Lemma pde_fwd_kw_not_generic kwargs msg :
  PROSE_1DPDE.fwd_kw kwargs ≠ Raise (PyException msg).
Proof.
  unfold PROSE_1DPDE.fwd_kw.
  destruct (bind_kwargs_cases kwargs) as [->|(d & it & ot & s & m & ->)];
    [done|]. apply pde_fwd_not_generic.
Qed.

(** C1: in both wrappers [forward] with mode ["generate"] is [forward] with
    mode ["fwd"]: the same program on the same keyword arguments, hence
    the same result, the same final state of the sub-modules and the same
    sub-module calls under every implementation of the sub-modules. *)
Theorem forward_generate_is_fwd kwargs :
  (PROSE_Fluids.forward "generate" kwargs = PROSE_Fluids.forward "fwd" kwargs ∧
   PROSE_1DPDE.forward "generate" kwargs = PROSE_1DPDE.forward "fwd" kwargs) ∧
  ∀ W (h : handler Tensor W) (w : W),
    run h (PROSE_Fluids.forward "generate" kwargs) w =
      run h (PROSE_Fluids.forward "fwd" kwargs) w ∧
    trace h (PROSE_Fluids.forward "generate" kwargs) w =
      trace h (PROSE_Fluids.forward "fwd" kwargs) w ∧
    run h (PROSE_1DPDE.forward "generate" kwargs) w =
      run h (PROSE_1DPDE.forward "fwd" kwargs) w ∧
    trace h (PROSE_1DPDE.forward "generate" kwargs) w =
      trace h (PROSE_1DPDE.forward "fwd" kwargs) w.
Proof.
  assert (PROSE_Fluids.forward "generate" kwargs =
            PROSE_Fluids.forward "fwd" kwargs) as HF by reflexivity.
  assert (PROSE_1DPDE.forward "generate" kwargs =
            PROSE_1DPDE.forward "fwd" kwargs) as HP by reflexivity.
  split; [done|]. intros W h w. by rewrite HF, HP.
Qed.

(** C2: in both wrappers [forward] raises its own exception, the generic
    [Exception] with message "Unknown mode: <mode>", exactly when the mode
    is neither ["fwd"] nor ["generate"]; for these two modes the dispatch
    raises nothing of its own and the call is the call of [fwd] on the same
    keyword arguments. *)
Theorem forward_raises_iff_unknown_mode (mode : string) kwargs :
  ((∃ msg, PROSE_Fluids.forward mode kwargs = Raise (PyException msg)) ↔
     mode ≠ "fwd" ∧ mode ≠ "generate") ∧
  ((∃ msg, PROSE_1DPDE.forward mode kwargs = Raise (PyException msg)) ↔
     mode ≠ "fwd" ∧ mode ≠ "generate") ∧
  (mode ≠ "fwd" ∧ mode ≠ "generate" →
     PROSE_Fluids.forward mode kwargs = Raise (unknown_mode mode) ∧
     PROSE_1DPDE.forward mode kwargs = Raise (unknown_mode mode) ∧
     ∃ pre post, unknown_mode mode = PyException (pre +:+ mode +:+ post)) ∧
  (mode = "fwd" ∨ mode = "generate" →
     PROSE_Fluids.forward mode kwargs = PROSE_Fluids.fwd_kw kwargs ∧
     PROSE_1DPDE.forward mode kwargs = PROSE_1DPDE.fwd_kw kwargs).
Proof.
  unfold PROSE_Fluids.forward, PROSE_1DPDE.forward,
    PROSE_Fluids.generate, PROSE_1DPDE.generate.
  split; [|split; [|split]].
  - split.
    + intros [msg Hm]. repeat case_decide; try done;
        by apply fluids_fwd_kw_not_generic in Hm.
    + intros [??]. repeat case_decide; try done. eauto.
  - split.
    + intros [msg Hm]. repeat case_decide; try done;
        by apply pde_fwd_kw_not_generic in Hm.
    + intros [??]. repeat case_decide; try done. eauto.
  - intros [??]. repeat case_decide; try done. split; [done|split; [done|]].
    exists "Unknown mode: ", "". unfold unknown_mode.
    assert (mode +:+ "" = mode) as ->; [|done].
    clear. induction mode as [|a s IH]; [done|].
    change (String a (s +:+ "") = String a s). by rewrite IH.
  - intros [->| ->]; by repeat case_decide.
Qed.

End dispatch.

(** ** The keyword arguments of [fwd] *)

Section keywords.
Context {Tensor : Type} `{!TensorLike Tensor}.
Implicit Types kwargs : gmap string (value Tensor).

Lemma symbol_keys_in_params :
  "symbol_input" ∈ fwd_params ∧ "symbol_padding_mask" ∈ fwd_params.
Proof. unfold fwd_params. set_solver. Qed.

(** Two dictionaries that differ on the two symbol keys only, one of which
    is bound in both, have their keys among the parameters together. *)
Lemma dom_params_symbol kwargs1 kwargs2 :
  (∀ k, k ≠ "symbol_input" → k ≠ "symbol_padding_mask" →
        kwargs1 !! k = kwargs2 !! k) →
  dom kwargs1 ⊆ fwd_params → dom kwargs2 ⊆ fwd_params.
Proof.
  intros Hag Hsub k Hk.
  destruct (decide (k = "symbol_input")) as [->|Hs];
    [apply symbol_keys_in_params|].
  destruct (decide (k = "symbol_padding_mask")) as [->|Hm];
    [apply symbol_keys_in_params|].
  apply Hsub, elem_of_dom. rewrite Hag by done. by apply elem_of_dom.
Qed.

(** Without [symbol_input] the call of [fwd] is a [TypeError], whatever the
    other keys are. *)
Lemma bind_kwargs_no_symbol_input kwargs :
  kwargs !! "symbol_input" = None →
  bind_kwargs kwargs = Raise TypeError.
Proof.
  intros Hs. unfold bind_kwargs. rewrite Hs.
  case_decide; [|done].
  by destruct (kwargs !! "data_input"), (kwargs !! "input_times"),
    (kwargs !! "output_times").
Qed.

(** [PROSE_Fluids.fwd] does not mention its symbol arguments. *)
Lemma fluids_fwd_symbol_irrelevant (d it ot s1 m1 s2 m2 : value Tensor) :
  PROSE_Fluids.fwd d it ot s1 m1 = PROSE_Fluids.fwd d it ot s2 m2.
Proof. reflexivity. Qed.

(** C10: in [PROSE_Fluids], a call of [fwd], or of [forward] in mode
    ["fwd"] or ["generate"], whose keyword arguments do not bind
    [symbol_input] raises a [TypeError] before any sub-module is called,
    although the value bound to [symbol_input] never changes what [fwd]
    does. *)
Theorem fluids_symbol_input_required kwargs :
  kwargs !! "symbol_input" = None →
  PROSE_Fluids.fwd_kw kwargs = Raise TypeError ∧
  PROSE_Fluids.forward "fwd" kwargs = Raise TypeError ∧
  PROSE_Fluids.forward "generate" kwargs = Raise TypeError ∧
  (∀ W (h : handler Tensor W) w,
     run h (PROSE_Fluids.forward "fwd" kwargs) w = (Err TypeError, w) ∧
     trace h (PROSE_Fluids.forward "fwd" kwargs) w = []) ∧
  ∀ d it ot s s' m,
    PROSE_Fluids.fwd (Tensor:=Tensor) d it ot s m = PROSE_Fluids.fwd d it ot s' m.
Proof.
  intros Hs.
  assert (PROSE_Fluids.fwd_kw kwargs = Raise TypeError) as Hkw.
  { unfold PROSE_Fluids.fwd_kw. by rewrite bind_kwargs_no_symbol_input. }
  assert (PROSE_Fluids.forward "fwd" kwargs = Raise TypeError) as Hf
    by exact Hkw.
  split; [done|]. split; [done|]. split; [exact Hkw|].
  split; [|intros; apply fluids_fwd_symbol_irrelevant].
  intros W h w. by rewrite Hf.
Qed.

(** C6: in [PROSE_Fluids], two calls of [fwd] that agree on [data_input],
    [input_times] and [output_times] and both bind [symbol_input] are the
    same program, whatever they bind [symbol_input] and
    [symbol_padding_mask] to: they return the same result, leave the
    sub-modules in the same state and make the same sub-module calls. *)
Theorem fluids_fwd_independent_of_symbol kwargs1 kwargs2 :
  (∀ k, k ≠ "symbol_input" → k ≠ "symbol_padding_mask" →
        kwargs1 !! k = kwargs2 !! k) →
  is_Some (kwargs1 !! "symbol_input") →
  is_Some (kwargs2 !! "symbol_input") →
  PROSE_Fluids.fwd_kw kwargs1 = PROSE_Fluids.fwd_kw kwargs2 ∧
  ∀ W (h : handler Tensor W) w,
    run h (PROSE_Fluids.fwd_kw kwargs1) w =
      run h (PROSE_Fluids.fwd_kw kwargs2) w ∧
    trace h (PROSE_Fluids.fwd_kw kwargs1) w =
      trace h (PROSE_Fluids.fwd_kw kwargs2) w.
Proof.
  intros Hag [s1 Hs1] [s2 Hs2].
  assert (PROSE_Fluids.fwd_kw kwargs1 = PROSE_Fluids.fwd_kw kwargs2) as Heq.
  { unfold PROSE_Fluids.fwd_kw, bind_kwargs.
    rewrite Hs1, Hs2, <- !(Hag "data_input"), <- !(Hag "input_times"),
      <- !(Hag "output_times") by done.
    assert (dom kwargs1 ⊆ fwd_params ↔ dom kwargs2 ⊆ fwd_params) as Hdom.
    { split; apply dom_params_symbol; [done|]. intros k ??. symmetry; auto. }
    repeat case_decide; try tauto; try done.
    by destruct (kwargs1 !! "data_input"), (kwargs1 !! "input_times"),
      (kwargs1 !! "output_times"). }
  split; [done|]. intros W h w. by rewrite Heq.
Qed.

End keywords.

(** ** A pass, call by call *)

Section passes.
Context {Tensor : Type} `{!TensorLike Tensor} {W : Type}.
Context (h : handler Tensor W).
Implicit Types (d it ot s m : value Tensor) (w : W).

(** Case analysis on the answer of the handler to the next call. *)
Ltac answer :=
  match goal with
  | |- context [h ?X ?c ?w] =>
      let x := fresh "x" in
      let w' := fresh "w" in
      let E := fresh "E" in
      destruct (h X c w) as [[x|x] w'] eqn:E; simpl in *
  | H : context [h ?X ?c ?w] |- _ =>
      let x := fresh "x" in
      let w' := fresh "w" in
      let E := fresh "E" in
      destruct (h X c w) as [[x|x] w'] eqn:E; simpl in *
  end.

Ltac open_fwd d :=
  unfold PROSE_Fluids.fwd, PROSE_1DPDE.fwd, size_at, unpack in *;
  destruct d as [|?t]; simpl in *.

Lemma fluids_pass_run d it ot s m w e enc q y out w' :
  fluids_pass h d it ot w e enc q y out w' →
  run h (PROSE_Fluids.fwd d it ot s m) w = (Ok (ObjTensor out), w') ∧
  trace h (PROSE_Fluids.fwd d it ot s m) w = fluids_trace d it ot e enc q y out.
Proof.
  intros (w1 & w2 & w3 & w4 & (sz & Hd & Hsz) & E1 & [n Hn] & E2 & E3 & E4 & E5).
  unfold fluids_trace. open_fwd d; [done|]. simplify_eq/=.
  rewrite decide_True by done. simpl.
  rewrite E1. simpl. rewrite Hn. simpl.
  rewrite E2. simpl. rewrite E3. simpl. rewrite E4. simpl. by rewrite E5.
Qed.

Lemma fluids_run_ok d it ot s m w r w' :
  run h (PROSE_Fluids.fwd d it ot s m) w = (Ok r, w') →
  ∃ e enc q y out,
    fluids_pass h d it ot w e enc q y out w' ∧ r = ObjTensor out.
Proof.
  intros Hrun. open_fwd d; [done|].
  case_decide as Hlen; simpl in *; [|done].
  answer; [|done].
  destruct (shape x !! 1) as [n|] eqn:Hn; simpl in *; [|done].
  answer; [|done]. answer; [|done]. answer; [|done]. answer; [|done].
  simplify_eq. eexists x, x0, x1, x2, x3. split; [|done].
  eexists _, _, _, _. rewrite Hn. eauto 10.
Qed.

Lemma pde_pass_run d it ot s m w e enc senc fused fused_mask q y out w' :
  pde_pass h d it ot s m w e enc senc fused fused_mask q y out w' →
  run h (PROSE_1DPDE.fwd d it ot s m) w =
    (Ok (ObjDict (pde_output e enc senc fused out)), w') ∧
  trace h (PROSE_1DPDE.fwd d it ot s m) w =
    pde_trace d it ot s m e enc senc fused fused_mask q y out.
Proof.
  intros (w1 & w2 & w3 & w4 & w5 & w6 & (sz & Hd & Hsz) & E1 & [n Hn] & E2
          & E3 & E4 & E5 & E6 & E7).
  unfold pde_trace, pde_output. open_fwd d; [done|]. simplify_eq/=.
  rewrite decide_True by done. simpl.
  rewrite E1. simpl. rewrite Hn. simpl.
  rewrite E2. simpl. rewrite E3. simpl. rewrite E4. simpl.
  rewrite E5. simpl. rewrite E6. simpl. by rewrite E7.
Qed.

Lemma pde_run_ok d it ot s m w r w' :
  run h (PROSE_1DPDE.fwd d it ot s m) w = (Ok r, w') →
  ∃ e enc senc fused fused_mask q y out,
    pde_pass h d it ot s m w e enc senc fused fused_mask q y out w' ∧
    r = ObjDict (pde_output e enc senc fused out).
Proof.
  intros Hrun. open_fwd d; [done|].
  case_decide as Hlen; simpl in *; [|done].
  answer; [|done].
  destruct (shape x !! 1) as [n|] eqn:Hn; simpl in *; [|done].
  answer; [|done]. answer; [|done]. answer; [|done].
  destruct x2 as [fused fused_mask]. simpl in *.
  answer; [|done]. answer; [|done]. answer; [|done].
  simplify_eq. eexists x, x0, x1, fused, fused_mask, x2, x3, x4.
  split; [|done].
  eexists _, _, _, _, _, _. rewrite Hn. eauto 12.
Qed.

End passes.

(** ** Order of the stages and form of the result *)

Section order.
Context {Tensor : Type} `{!TensorLike Tensor} {W : Type}.
Context (h : handler Tensor W).
Implicit Types (d it ot s m : value Tensor) (w : W).

Ltac next_call :=
  match goal with
  | |- context [h ?X ?c ?w] =>
      let E := fresh "E" in
      destruct (h X c w) as [[?x|?x] ?w] eqn:E; simpl
  | |- context [shape ?x !! 1] =>
      let E := fresh "E" in
      destruct (shape x !! 1) eqn:E; simpl
  | |- context [let '(_, _) := ?x in _] => destruct x; simpl
  end.

(** However far a pass gets, the stages it has gone through are an initial
    segment of the full list. *)
Lemma fluids_stages_prefix d it ot s m w :
  stages h (PROSE_Fluids.fwd d it ot s m) w `prefix_of` fluids_stages.
Proof.
  unfold stages, fluids_stages, PROSE_Fluids.fwd, size_at, unpack.
  destruct d as [|t]; simpl; [by eexists|].
  case_decide; simpl; [|by eexists].
  repeat next_call; by eexists.
Qed.

Lemma pde_stages_prefix d it ot s m w :
  stages h (PROSE_1DPDE.fwd d it ot s m) w `prefix_of` pde_stages.
Proof.
  unfold stages, pde_stages, PROSE_1DPDE.fwd, size_at, unpack.
  destruct d as [|t]; simpl; [by eexists|].
  case_decide; simpl; [|by eexists].
  repeat next_call; by eexists.
Qed.

(** C7: a pass of [fwd] goes through its stages in one fixed order.  The
    stages reached by any pass, complete or cut short by an exception, are
    an initial segment of embed, encode data, (1D only: encode symbol,
    fuse,) build queries, decode, inverse-embed; a pass that returns has
    made exactly these calls, each on the result of the stage the claim
    names: the encoder on the embedding, the fusion on the two encodings
    with the symbol padding mask, the queries from [output_times], the
    decoder on the fused context and the queries, the inverse embedding on
    the decoder's output. *)
Theorem fwd_stage_order d it ot s m w :
  (stages h (PROSE_Fluids.fwd d it ot s m) w `prefix_of` fluids_stages ∧
   ∀ r w', run h (PROSE_Fluids.fwd d it ot s m) w = (Ok r, w') →
     stages h (PROSE_Fluids.fwd d it ot s m) w = fluids_stages ∧
     ∃ e enc q y out,
       trace h (PROSE_Fluids.fwd d it ot s m) w =
         [ Ev (EmbedderEncode d it) (Ok e);
           Ev (DataEncoder e) (Ok enc);
           Ev (GetQueryEmb ot) (Ok q);
           Ev (DataDecoder enc q VNone) (Ok y);
           Ev (EmbedderDecode y) (Ok out) ] ∧
       r = ObjTensor out) ∧
  (stages h (PROSE_1DPDE.fwd d it ot s m) w `prefix_of` pde_stages ∧
   ∀ r w', run h (PROSE_1DPDE.fwd d it ot s m) w = (Ok r, w') →
     stages h (PROSE_1DPDE.fwd d it ot s m) w = pde_stages ∧
     ∃ e enc senc fused fused_mask q y out,
       trace h (PROSE_1DPDE.fwd d it ot s m) w =
         [ Ev (EmbedderEncode d it) (Ok e);
           Ev (DataEncoder e) (Ok enc);
           Ev (SymbolEncoder s m) (Ok senc);
           Ev (Fusion enc senc VNone m) (Ok (fused, fused_mask));
           Ev (GetQueryEmb ot) (Ok q);
           Ev (DataDecoder fused q fused_mask) (Ok y);
           Ev (EmbedderDecode y) (Ok out) ] ∧
       r = ObjDict (pde_output e enc senc fused out)).
Proof.
  split; (split; [apply fluids_stages_prefix || apply pde_stages_prefix|]).
  - intros r w' Hrun.
    apply fluids_run_ok in Hrun as (e & enc & q & y & out & Hpass & ->).
    apply (fluids_pass_run h _ _ _ s m) in Hpass as [_ Htr].
    unfold stages. rewrite Htr. split; [done|]. by eexists _, _, _, _, _.
  - intros r w' Hrun.
    apply pde_run_ok in Hrun
      as (e & enc & senc & fused & fm & q & y & out & Hpass & ->).
    apply pde_pass_run in Hpass as [_ Htr].
    unfold stages. rewrite Htr. split; [done|].
    by eexists _, _, _, _, _, _, _, _.
Qed.

Lemma pde_output_keys (e enc senc fused out : Tensor) :
  dom (pde_output e enc senc fused out) = pde_keys.
Proof.
  unfold pde_output, pde_keys. rewrite !dom_insert_L, dom_empty_L.
  set_solver.
Qed.

(** What [forward] returns, [fwd] returned on the bound arguments. *)
Lemma pde_forward_ok (mode : string) (kwargs : gmap string (value Tensor))
    w r w' :
  run h (PROSE_1DPDE.forward mode kwargs) w = (Ok r, w') →
  ∃ d it ot s m,
    bind_kwargs kwargs = Ret (d, it, ot, s, m) ∧
    run h (PROSE_1DPDE.fwd d it ot s m) w = (Ok r, w').
Proof.
  unfold PROSE_1DPDE.forward, PROSE_1DPDE.generate, PROSE_1DPDE.fwd_kw.
  intros Hrun.
  destruct (bind_kwargs_cases kwargs) as [Hb|(d & it & ot & s & m & Hb)];
    rewrite Hb in Hrun; repeat case_decide; try done; eauto 10.
Qed.

(** C4: whenever [PROSE_1DPDE.fwd] returns, and so whenever
    [PROSE_1DPDE.forward] returns in either mode, the result is a dictionary
    whose keys are exactly "data_embeded", "data_encoded", "symbol_encoded",
    "fused" and "data_output", with the tensor returned by [embedder.decode]
    under "data_output"; it is never the tensor itself.  [PROSE_Fluids.fwd]
    returns the tensor returned by [embedder.decode].  [PROSE_1DPDE.fwd]
    does return once the unpacking of the size and its seven sub-module
    calls succeed. *)
Theorem pde_fwd_returns_dict :
  (∀ d it ot s m w r w',
     run h (PROSE_1DPDE.fwd d it ot s m) w = (Ok r, w') →
     ∃ dict y out,
       r = ObjDict dict ∧ dom dict = pde_keys ∧
       dict !! "data_output" = Some out ∧
       last (trace h (PROSE_1DPDE.fwd d it ot s m) w) =
         Some (Ev (EmbedderDecode y) (Ok out)) ∧
       ∀ t, r ≠ ObjTensor t) ∧
  (∀ (mode : string) (kwargs : gmap string (value Tensor)) w r w',
     run h (PROSE_1DPDE.forward mode kwargs) w = (Ok r, w') →
     ∃ dict out,
       r = ObjDict dict ∧ dom dict = pde_keys ∧
       dict !! "data_output" = Some out) ∧
  (∀ d it ot s m w r w',
     run h (PROSE_Fluids.fwd d it ot s m) w = (Ok r, w') →
     ∃ y out,
       r = ObjTensor out ∧
       last (trace h (PROSE_Fluids.fwd d it ot s m) w) =
         Some (Ev (EmbedderDecode y) (Ok out))) ∧
  (∀ d it ot s m w e enc senc fused fused_mask q y out w',
     pde_pass h d it ot s m w e enc senc fused fused_mask q y out w' →
     run h (PROSE_1DPDE.fwd d it ot s m) w =
       (Ok (ObjDict (pde_output e enc senc fused out)), w')).
Proof.
  assert (∀ d it ot s m w r w',
     run h (PROSE_1DPDE.fwd d it ot s m) w = (Ok r, w') →
     ∃ dict y out,
       r = ObjDict dict ∧ dom dict = pde_keys ∧
       dict !! "data_output" = Some out ∧
       last (trace h (PROSE_1DPDE.fwd d it ot s m) w) =
         Some (Ev (EmbedderDecode y) (Ok out)) ∧
       ∀ t, r ≠ ObjTensor t) as Hfwd.
  { intros d it ot s m w r w' Hrun.
    apply pde_run_ok in Hrun
      as (e & enc & senc & fused & fm & q & y & out & Hpass & ->).
    apply pde_pass_run in Hpass as [_ Htr].
    eexists _, y, out. split; [done|]. split; [apply pde_output_keys|].
    split; [apply lookup_insert_eq|]. by rewrite Htr. }
  split; [exact Hfwd|]. split; [|split].
  - intros mode kwargs w r w' Hrun.
    apply pde_forward_ok in Hrun as (d & it & ot & s & m & _ & Hrun).
    apply Hfwd in Hrun as (dict & y & out & ? & ? & ? & _). eauto.
  - intros d it ot s m w r w' Hrun.
    apply fluids_run_ok in Hrun as (e & enc & q & y & out & Hpass & ->).
    apply (fluids_pass_run h _ _ _ s m) in Hpass as [_ Htr].
    eexists y, out. by rewrite Htr.
  - intros d it ot s m w e enc senc fused fm q y out w' Hpass.
    by apply pde_pass_run in Hpass as [Hrun _].
Qed.

End order.

(** ** Shapes along a pass *)

Section contract.
Context {Tensor : Type} `{!TensorLike Tensor} {W : Type}.
Context (cfg : config) (h : handler Tensor W).
Implicit Types (d it ot s m : value Tensor) (w : W).

Lemma seq_len_2d (steps : nat) :
  seq_len cfg 2 steps = steps * patch_num cfg * patch_num cfg.
Proof. unfold seq_len, patch_count. simpl. lia. Qed.

Lemma seq_len_1d (steps : nat) : seq_len cfg 1 steps = steps * patch_num cfg.
Proof. unfold seq_len, patch_count. simpl. lia. Qed.

(** Sub-modules that keep to their shapes carry a well-shaped call of
    [PROSE_Fluids.fwd] through. *)
Lemma fluids_pass_of_spec d it ot bs input_len output_len w :
  data_modules_spec cfg 2 h →
  shape_of d = Some (field_shape cfg 2 bs input_len) →
  shape_of it = Some (time_shape bs input_len) →
  shape_of ot = Some (time_shape bs output_len) →
  ∃ e enc q y out w',
    fluids_pass h d it ot w e enc q y out w' ∧
    shape e = latent_shape cfg bs (seq_len cfg 2 input_len) ∧
    shape enc = latent_shape cfg bs (seq_len cfg 2 input_len) ∧
    shape q = latent_shape cfg bs (seq_len cfg 2 output_len) ∧
    shape out = field_shape cfg 2 bs output_len.
Proof.
  intros Hspec Hd Hit Hot.
  destruct (encode_spec _ _ _ Hspec d it bs input_len w Hd Hit)
    as (e & w1 & E1 & He).
  destruct (data_encoder_spec _ _ _ Hspec e bs _ w1 He)
    as (enc & w2 & E2 & Henc).
  destruct (get_query_emb_spec _ _ _ Hspec ot bs output_len w2 Hot)
    as (q & w3 & E3 & Hq).
  destruct (data_decoder_spec _ _ _ Hspec enc q VNone bs _ _ w3 Henc Hq I)
    as (y & w4 & E4 & Hy).
  destruct (decode_spec _ _ _ Hspec y bs output_len w4 Hy)
    as (out & w' & E5 & Hout).
  exists e, enc, q, y, out, w'. split; [|done].
  exists w1, w2, w3, w4. rewrite He. split; [|by eauto 10].
  exists (field_shape cfg 2 bs input_len). done.
Qed.

Lemma pde_pass_of_spec d it ot s m bs input_len output_len symbol_len w :
  data_modules_spec cfg 1 h →
  symbol_modules_spec cfg h →
  shape_of d = Some (field_shape cfg 1 bs input_len) →
  shape_of it = Some (time_shape bs input_len) →
  shape_of ot = Some (time_shape bs output_len) →
  shape_of s = Some [bs; symbol_len] →
  mask_ok m bs symbol_len →
  ∃ e enc senc fused fused_mask q y out w',
    pde_pass h d it ot s m w e enc senc fused fused_mask q y out w' ∧
    shape e = latent_shape cfg bs (seq_len cfg 1 input_len) ∧
    shape enc = latent_shape cfg bs (seq_len cfg 1 input_len) ∧
    shape senc = latent_shape cfg bs symbol_len ∧
    shape fused =
      latent_shape cfg bs (seq_len cfg 1 input_len + symbol_len) ∧
    shape q = latent_shape cfg bs (seq_len cfg 1 output_len) ∧
    shape out = field_shape cfg 1 bs output_len.
Proof.
  intros Hspec Hsym Hd Hit Hot Hs Hm.
  destruct (encode_spec _ _ _ Hspec d it bs input_len w Hd Hit)
    as (e & w1 & E1 & He).
  destruct (data_encoder_spec _ _ _ Hspec e bs _ w1 He)
    as (enc & w2 & E2 & Henc).
  destruct (symbol_encoder_spec _ _ Hsym s m bs symbol_len w2 Hs Hm)
    as (senc & w3 & E3 & Hsenc).
  destruct (fusion_spec _ _ Hsym enc senc m bs _ _ w3 Henc Hsenc Hm)
    as (fused & fm & w4 & E4 & Hfused & Hfm).
  destruct (get_query_emb_spec _ _ _ Hspec ot bs output_len w4 Hot)
    as (q & w5 & E5 & Hq).
  destruct (data_decoder_spec _ _ _ Hspec fused q fm bs _ _ w5 Hfused Hq Hfm)
    as (y & w6 & E6 & Hy).
  destruct (decode_spec _ _ _ Hspec y bs output_len w6 Hy)
    as (out & w' & E7 & Hout).
  exists e, enc, senc, fused, fm, q, y, out, w'. split; [|done].
  exists w1, w2, w3, w4, w5, w6. rewrite He. split; [|by eauto 12].
  exists (field_shape cfg 1 bs input_len). done.
Qed.

(** C3: with sub-modules that keep to the shapes the comments of [fwd] give
    them, a call of [fwd] on [data_input] of shape (batch, input_len,
    grid..., channel), for the grid and the channels the embedder was built
    with, on [input_times] of shape (batch, input_len, 1) and on
    [output_times] of shape (batch, output_len, 1) returns a field tensor of
    shape (batch, output_len, grid..., channel): the tensor itself in
    [PROSE_Fluids], the entry "data_output" of the dictionary in
    [PROSE_1DPDE]. *)
Theorem fwd_output_shape d it ot s m bs input_len output_len w :
  shape_of it = Some [bs; input_len; 1] →
  shape_of ot = Some [bs; output_len; 1] →
  (data_modules_spec cfg 2 h →
   shape_of d =
     Some [bs; input_len; x_num cfg; x_num cfg; max_output_dim cfg] →
   ∃ out w',
     run h (PROSE_Fluids.fwd d it ot s m) w = (Ok (ObjTensor out), w') ∧
     shape out = [bs; output_len; x_num cfg; x_num cfg; max_output_dim cfg]) ∧
  (data_modules_spec cfg 1 h →
   symbol_modules_spec cfg h →
   shape_of d = Some [bs; input_len; x_num cfg; max_output_dim cfg] →
   ∀ symbol_len,
     shape_of s = Some [bs; symbol_len] →
     mask_ok m bs symbol_len →
     ∃ dict out w',
       run h (PROSE_1DPDE.fwd d it ot s m) w = (Ok (ObjDict dict), w') ∧
       dict !! "data_output" = Some out ∧
       shape out = [bs; output_len; x_num cfg; max_output_dim cfg]).
Proof.
  intros Hit Hot. split.
  - intros Hspec Hd.
    destruct (fluids_pass_of_spec d it ot bs input_len output_len w
                Hspec Hd Hit Hot)
      as (e & enc & q & y & out & w' & Hpass & _ & _ & _ & Hout).
    apply (fluids_pass_run h _ _ _ s m) in Hpass as [Hrun _]. eauto.
  - intros Hspec Hsym Hd symbol_len Hs Hm.
    destruct (pde_pass_of_spec d it ot s m bs input_len output_len symbol_len
                w Hspec Hsym Hd Hit Hot Hs Hm)
      as (e & enc & senc & fused & fm & q & y & out & w' & Hpass & Hsh).
    apply pde_pass_run in Hpass as [Hrun _].
    eexists _, out, w'. split; [exact Hrun|].
    split; [apply lookup_insert_eq|]. apply Hsh.
Qed.

(** C8, as amended: with sub-modules that keep to their shapes, the
    sequence handed to the data encoder has length
    [data_len = input_len * patch_num * patch_num] in [PROSE_Fluids] and
    [data_len = input_len * patch_num] in [PROSE_1DPDE]; the context handed
    to the decoder has length [data_len] in [PROSE_Fluids] and
    [data_len + symbol_len] in [PROSE_1DPDE], where the fusion has appended
    the symbol sequence. *)
Theorem fwd_sequence_lengths d it ot s m bs input_len output_len w :
  shape_of it = Some [bs; input_len; 1] →
  shape_of ot = Some [bs; output_len; 1] →
  (data_modules_spec cfg 2 h →
   shape_of d =
     Some [bs; input_len; x_num cfg; x_num cfg; max_output_dim cfg] →
   ∃ e enc q y out,
     trace h (PROSE_Fluids.fwd d it ot s m) w =
       fluids_trace d it ot e enc q y out ∧
     shape e !! 1 = Some (input_len * patch_num cfg * patch_num cfg) ∧
     shape enc !! 1 = Some (input_len * patch_num cfg * patch_num cfg)) ∧
  (data_modules_spec cfg 1 h →
   symbol_modules_spec cfg h →
   shape_of d = Some [bs; input_len; x_num cfg; max_output_dim cfg] →
   ∀ symbol_len,
     shape_of s = Some [bs; symbol_len] →
     mask_ok m bs symbol_len →
     ∃ e enc senc fused fused_mask q y out,
       trace h (PROSE_1DPDE.fwd d it ot s m) w =
         pde_trace d it ot s m e enc senc fused fused_mask q y out ∧
       shape e !! 1 = Some (input_len * patch_num cfg) ∧
       shape fused !! 1 = Some (input_len * patch_num cfg + symbol_len)).
Proof.
  intros Hit Hot. split.
  - intros Hspec Hd.
    destruct (fluids_pass_of_spec d it ot bs input_len output_len w
                Hspec Hd Hit Hot)
      as (e & enc & q & y & out & w' & Hpass & He & Henc & _).
    apply (fluids_pass_run h _ _ _ s m) in Hpass as [_ Htr].
    exists e, enc, q, y, out. rewrite He, Henc, <- seq_len_2d. done.
  - intros Hspec Hsym Hd symbol_len Hs Hm.
    destruct (pde_pass_of_spec d it ot s m bs input_len output_len symbol_len
                w Hspec Hsym Hd Hit Hot Hs Hm)
      as (e & enc & senc & fused & fm & q & y & out & w' & Hpass & He & _
          & _ & Hfused & _).
    apply pde_pass_run in Hpass as [_ Htr].
    exists e, enc, senc, fused, fm, q, y, out.
    rewrite He, Hfused, <- seq_len_1d. done.
Qed.

End contract.

(** ** The shape-only sub-modules keep to the shapes *)

Section shape_modules_spec.
Context (cfg : config) (sd : nat).

Lemma shape_of_dims (v : value shape_tensor) (l : list nat) :
  shape_of v = Some l → ∃ t, v = VTensor t ∧ dims t = l.
Proof. destruct v as [|t]; [done|]. intros [= <-]. by exists t. Qed.

Lemma as_latent_shape (t : shape_tensor) (bs len : nat) :
  shape t = latent_shape cfg bs len → as_latent cfg t = Some (bs, len).
Proof.
  unfold shape, shape_tensor_like, as_latent, latent_shape. intros ->.
  by rewrite decide_True.
Qed.

Lemma check_mask_ok (m : value shape_tensor) (bs len : nat) :
  mask_ok m bs len → check_mask m bs len = true.
Proof.
  destruct m as [|t]; [done|]. simpl. intros Ht.
  by apply bool_decide_eq_true.
Qed.

Lemma shape_modules_data_spec :
  patch_count cfg sd ≠ 0 →
  data_modules_spec cfg sd (shape_modules cfg sd).
Proof.
  intros Hpc. split.
  - intros data times bs input_len w
      (d & -> & Hd)%shape_of_dims (t & -> & Ht)%shape_of_dims.
    unfold shape_modules, embedder_encode.
    destruct d as [l]. simpl in Hd. subst l. simpl.
    rewrite bool_decide_eq_true_2 by done. eauto.
  - intros x bs len w Hx. unfold shape_modules, data_encoder.
    rewrite (as_latent_shape _ _ _ Hx). eauto.
  - intros times bs output_len w (t & -> & Ht)%shape_of_dims.
    unfold shape_modules, get_query_emb. rewrite Ht. eauto.
  - intros src q m bs src_len query_len w Hsrc Hq Hm.
    unfold shape_modules, data_decoder.
    rewrite (as_latent_shape _ _ _ Hsrc), (as_latent_shape _ _ _ Hq).
    rewrite bool_decide_eq_true_2 by done.
    rewrite (check_mask_ok _ _ _ Hm). eauto.
  - intros y bs output_len w Hy. unfold shape_modules, embedder_decode.
    rewrite (as_latent_shape _ _ _ Hy). unfold seq_len.
    rewrite bool_decide_eq_true_2.
    + rewrite Nat.div_mul by done. eauto.
    + split; [done|]. by apply Nat.Div0.mod_mul.
Qed.

Lemma shape_modules_symbol_spec :
  symbol_modules_spec cfg (shape_modules cfg sd).
Proof.
  split.
  - intros sym m bs symbol_len w (t & -> & Ht)%shape_of_dims Hm.
    unfold shape_modules, symbol_encoder. rewrite Ht.
    rewrite (check_mask_ok _ _ _ Hm). eauto.
  - intros x0 x1 m1 bs len0 len1 w H0 H1 Hm.
    unfold shape_modules, fusion.
    rewrite (as_latent_shape _ _ _ H0), (as_latent_shape _ _ _ H1).
    rewrite bool_decide_eq_true_2 by done.
    rewrite (check_mask_ok _ _ _ Hm). simpl.
    destruct m1; eexists _, _, _; split; done.
Qed.

End shape_modules_spec.

(** ** The optional padding mask *)

Section padding_mask.
Context {Tensor : Type} `{!TensorLike Tensor} {W : Type}.
Context (h : handler Tensor W).
Implicit Types (d it ot s m : value Tensor) (w : W).
Implicit Types kwargs : gmap string (value Tensor).

Lemma bind_kwargs_bound kwargs d it ot s :
  dom kwargs ⊆ fwd_params →
  kwargs !! "data_input" = Some d →
  kwargs !! "input_times" = Some it →
  kwargs !! "output_times" = Some ot →
  kwargs !! "symbol_input" = Some s →
  bind_kwargs kwargs =
    Ret (d, it, ot, s, default VNone (kwargs !! "symbol_padding_mask")).
Proof.
  intros Hdom Hd Hit Hot Hs. unfold bind_kwargs.
  rewrite decide_True by done. by rewrite Hd, Hit, Hot, Hs.
Qed.



End padding_mask.

(** ** The two variants side by side *)


Section variants_properties.
Context {Tensor : Type} `{!TensorLike Tensor}.
Implicit Types (d it ot s m : value Tensor).

Lemma forward_is_dispatch (mode : string)
    (kwargs : gmap string (value Tensor)) :
  PROSE_Fluids.forward mode kwargs = dispatch PROSE_Fluids.fwd mode kwargs ∧
  PROSE_1DPDE.forward mode kwargs = dispatch PROSE_1DPDE.fwd mode kwargs.
Proof.
  unfold PROSE_Fluids.forward, PROSE_1DPDE.forward, dispatch,
    PROSE_Fluids.generate, PROSE_1DPDE.generate.
  repeat case_decide; try done; tauto.
Qed.

Lemma fwd_is_pipeline {W} (h : handler Tensor W) d it ot s m w :
  (run h (PROSE_Fluids.fwd d it ot s m) w =
     run h (pipeline fluids_variant d it ot s m) w ∧
   trace h (PROSE_Fluids.fwd d it ot s m) w =
     trace h (pipeline fluids_variant d it ot s m) w) ∧
  (run h (PROSE_1DPDE.fwd d it ot s m) w =
     run h (pipeline pde_variant d it ot s m) w ∧
   trace h (PROSE_1DPDE.fwd d it ot s m) w =
     trace h (pipeline pde_variant d it ot s m) w).
Proof.
  split; [done|].
  unfold PROSE_1DPDE.fwd, pipeline, size_at, unpack.
  destruct d as [|t]; simpl; [done|].
  case_decide; simpl; [|done].
  destruct (h _ (EmbedderEncode (VTensor t) it) w) as [[e|?] w1]; [|done].
  simpl. destruct (shape e !! 1); simpl; [|done].
  destruct (h _ (DataEncoder e) w1) as [[enc|?] w2]; [|done]. simpl.
  destruct (h _ (SymbolEncoder s m) w2) as [[senc|?] w3]; [|done]. simpl.
  by destruct (h _ (Fusion enc senc VNone m) w3) as [[[fused fm]|?] w4].
Qed.

(** C5, as amended: the two wrappers share the mode dispatch and the
    binding of the keyword arguments, and each [fwd] is the one pipeline
    embed → encode(data) [+ encode(symbol) → fuse] → build queries → decode
    → inverse-embed; they differ in three settings of it: the symbol path
    (off in [PROSE_Fluids], where the fused context is the data encoding
    with no mask; on in [PROSE_1DPDE]), the number of dimensions of
    [data_input] (5 against 4) and the form of the result (the field tensor
    against a dictionary holding it with the intermediate tensors). *)
Theorem variants_share_pipeline (mode : string)
    (kwargs : gmap string (value Tensor)) d it ot s m :
  (PROSE_Fluids.forward mode kwargs = dispatch PROSE_Fluids.fwd mode kwargs ∧
   PROSE_1DPDE.forward mode kwargs = dispatch PROSE_1DPDE.fwd mode kwargs) ∧
  (∀ W (h : handler Tensor W) w,
     run h (PROSE_Fluids.fwd d it ot s m) w =
       run h (pipeline fluids_variant d it ot s m) w ∧
     trace h (PROSE_Fluids.fwd d it ot s m) w =
       trace h (pipeline fluids_variant d it ot s m) w ∧
     run h (PROSE_1DPDE.fwd d it ot s m) w =
       run h (pipeline pde_variant d it ot s m) w ∧
     trace h (PROSE_1DPDE.fwd d it ot s m) w =
       trace h (pipeline pde_variant d it ot s m) w) ∧
  fluids_variant =
    {| data_rank := 5; symbol_path := false; returns_dict := false |} ∧
  pde_variant =
    {| data_rank := 4; symbol_path := true; returns_dict := true |}.
Proof.
  split; [apply forward_is_dispatch|]. split; [|done].
  intros W h w. destruct (fwd_is_pipeline h d it ot s m w) as [[??] [??]].
  done.
Qed.

End variants_properties.

(** ** Runs on the sample inputs *)

Section sample_runs.
Import Sample.

Lemma sample_data_spec_2d : data_modules_spec cfg 2 modules2d.
Proof. by apply shape_modules_data_spec. Qed.

Lemma sample_data_spec_1d : data_modules_spec cfg 1 modules1d.
Proof. by apply shape_modules_data_spec. Qed.

Lemma sample_symbol_spec : symbol_modules_spec cfg modules1d.
Proof. apply shape_modules_symbol_spec. Qed.

Lemma sample_kwargs_dom data : dom (kwargs data) ⊆ fwd_params.
Proof.
  apply (bool_decide_unpack (dom (kwargs data) ⊆ fwd_params)).
  vm_compute. exact I.
Qed.

Lemma forward_raises_iff_unknown_mode_witness :
  PROSE_Fluids.forward "train" (kwargs field2d) =
    Raise (PyException "Unknown mode: train") ∧
  PROSE_1DPDE.forward "train" (kwargs field1d) =
    Raise (PyException "Unknown mode: train").
Proof.
  split.
  - apply (forward_raises_iff_unknown_mode "train" (kwargs field2d)).
    split; discriminate.
  - apply (forward_raises_iff_unknown_mode "train" (kwargs field1d)).
    split; discriminate.
Defined.

Lemma fluids_symbol_input_required_witness :
  PROSE_Fluids.forward "generate"
    (delete "symbol_input" (kwargs field2d)) = Raise TypeError.
Proof.
  apply (fluids_symbol_input_required
           (delete "symbol_input" (kwargs field2d))).
  reflexivity.
Defined.

Lemma fluids_fwd_independent_of_symbol_witness :
  run modules2d (PROSE_Fluids.fwd_kw (kwargs field2d)) 0 =
    run modules2d (PROSE_Fluids.fwd_kw
              (<["symbol_padding_mask" := symbol_mask]>
                 (<["symbol_input" := VNone]> (kwargs field2d)))) 0.
Proof.
  apply (fluids_fwd_independent_of_symbol (kwargs field2d)
           (<["symbol_padding_mask" := symbol_mask]>
              (<["symbol_input" := VNone]> (kwargs field2d)))).
  - intros k Hs Hm. by rewrite !lookup_insert_ne.
  - by eexists.
  - by eexists.
Defined.

Lemma fwd_stage_order_witness :
  stages modules2d (PROSE_Fluids.fwd field2d input_times output_times
               symbol_input VNone) 0 = fluids_stages ∧
  stages modules1d (PROSE_1DPDE.fwd field1d input_times output_times
               symbol_input VNone) 0 = pde_stages.
Proof.
  split.
  - eapply (fwd_stage_order modules2d field2d input_times output_times
              symbol_input VNone 0).
    reflexivity.
  - eapply (fwd_stage_order modules1d field1d input_times output_times
              symbol_input VNone 0).
    reflexivity.
Defined.

Lemma pde_fwd_returns_dict_witness :
  ∃ dict out,
    run modules1d (PROSE_1DPDE.forward "generate" (kwargs field1d)) 0 =
      (Ok (ObjDict dict), 7) ∧
    dom dict = pde_keys ∧ dict !! "data_output" = Some out.
Proof.
  destruct (pde_fwd_returns_dict modules1d) as (_ & Hfwd & _).
  destruct (Hfwd "generate" (kwargs field1d) 0
              (ObjDict (pde_output (ShapeOnly [2; 10; 8])
                          (ShapeOnly [2; 10; 8]) (ShapeOnly [2; 6; 8])
                          (ShapeOnly [2; 16; 8]) (ShapeOnly [2; 7; 4; 3])))
              7 eq_refl)
    as (dict & out & Hr & Hdom & Hout).
  exists dict, out. by injection Hr as <-.
Defined.

Lemma fwd_output_shape_witness :
  (∃ out w',
     run modules2d (PROSE_Fluids.fwd field2d input_times output_times symbol_input
               VNone) 0 = (Ok (ObjTensor out), w') ∧
     shape out = [2; 7; 4; 4; 3]) ∧
  (∃ dict out w',
     run modules1d (PROSE_1DPDE.fwd field1d input_times output_times symbol_input
               symbol_mask) 0 = (Ok (ObjDict dict), w') ∧
     dict !! "data_output" = Some out ∧
     shape out = [2; 7; 4; 3]).
Proof.
  split.
  - apply (fwd_output_shape cfg modules2d field2d input_times output_times
             symbol_input VNone 2 5 7 0 eq_refl eq_refl).
    + exact sample_data_spec_2d.
    + reflexivity.
  - apply (fwd_output_shape cfg modules1d field1d input_times output_times
             symbol_input symbol_mask 2 5 7 0 eq_refl eq_refl)
      with (symbol_len := 6).
    + exact sample_data_spec_1d.
    + exact sample_symbol_spec.
    + reflexivity.
    + reflexivity.
    + reflexivity.
Defined.

Lemma fwd_sequence_lengths_witness :
  (∃ e enc q y out,
     trace modules2d (PROSE_Fluids.fwd field2d input_times output_times
                 symbol_input VNone) 0 =
       fluids_trace field2d input_times output_times e enc q y out ∧
     shape e !! 1 = Some 20 ∧ shape enc !! 1 = Some 20) ∧
  (∃ e enc senc fused fused_mask q y out,
     trace modules1d (PROSE_1DPDE.fwd field1d input_times output_times
                 symbol_input symbol_mask) 0 =
       pde_trace field1d input_times output_times symbol_input symbol_mask
         e enc senc fused fused_mask q y out ∧
     shape e !! 1 = Some 10 ∧ shape fused !! 1 = Some 16).
Proof.
  split.
  - apply (fwd_sequence_lengths cfg modules2d field2d input_times output_times
             symbol_input VNone 2 5 7 0 eq_refl eq_refl).
    + exact sample_data_spec_2d.
    + reflexivity.
  - apply (fwd_sequence_lengths cfg modules1d field1d input_times output_times
             symbol_input symbol_mask 2 5 7 0 eq_refl eq_refl)
      with (symbol_len := 6).
    + exact sample_data_spec_1d.
    + exact sample_symbol_spec.
    + reflexivity.
    + reflexivity.
    + reflexivity.
Defined.



(** C5 as stated fails: on a five-dimensional [data_input] [PROSE_Fluids.fwd]
    goes on to call the embedder while [PROSE_1DPDE.fwd] raises a
    [ValueError] at once, so the variants do not accept the same inputs;
    and where each returns, one returns a tensor and the other a
    dictionary. *)
Lemma variants_do_not_accept_alike :
  ¬ accept_alike field2d input_times output_times symbol_input VNone ∧
  (∃ t, run modules2d (PROSE_Fluids.fwd field2d input_times output_times
                  symbol_input VNone) 0 = (Ok (ObjTensor t), 5)) ∧
  (∃ dict, run modules1d (PROSE_1DPDE.fwd field1d input_times output_times
                     symbol_input VNone) 0 = (Ok (ObjDict dict), 7)).
Proof.
  split; [|split; by eexists].
  intros [_ Hacc]. destruct Hacc as [e He]; [by exists ValueError|].
  discriminate He.
Qed.

(** C8 as stated fails for the decoder of [PROSE_1DPDE]: on 5 input steps
    with 2 patches and 6 symbol tokens the data encoder consumes a sequence
    of length 10 = 5 * 2, the decoder a context of length 16 = 10 + 6. *)
Lemma pde_decoder_context_is_not_data_len :
  decoder_context_lengths modules1d
    (PROSE_1DPDE.fwd field1d input_times output_times symbol_input
       symbol_mask) 0 = [5 * patch_num cfg + 6] ∧
  decoder_context_lengths modules1d
    (PROSE_1DPDE.fwd field1d input_times output_times symbol_input
       symbol_mask) 0 ≠ [5 * patch_num cfg].
Proof. split; [reflexivity|]. vm_compute. discriminate. Qed.

End sample_runs.

(** ** What [fwd] checks itself *)

Section rejection.
Context {Tensor : Type} `{!TensorLike Tensor}.
Implicit Types (d it ot s m : value Tensor).

Lemma fluids_fwd_cases d it ot s m :
  (d = VNone ∧ PROSE_Fluids.fwd d it ot s m = Raise AttributeError) ∨
  (∃ t, d = VTensor t ∧ length (shape t) ≠ 5 ∧
        PROSE_Fluids.fwd d it ot s m = Raise ValueError) ∨
  (∃ t k, d = VTensor t ∧ length (shape t) = 5 ∧
          PROSE_Fluids.fwd d it ot s m = Call (EmbedderEncode d it) k).
Proof.
  destruct d as [|t]; [by left|]. right.
  unfold PROSE_Fluids.fwd, unpack. simpl.
  destruct (decide (length (shape t) = 5)) as [Hlen|Hlen].
  - right. by eexists t, _.
  - left. by exists t.
Qed.

Lemma pde_fwd_cases d it ot s m :
  (d = VNone ∧ PROSE_1DPDE.fwd d it ot s m = Raise AttributeError) ∨
  (∃ t, d = VTensor t ∧ length (shape t) ≠ 4 ∧
        PROSE_1DPDE.fwd d it ot s m = Raise ValueError) ∨
  (∃ t k, d = VTensor t ∧ length (shape t) = 4 ∧
          PROSE_1DPDE.fwd d it ot s m = Call (EmbedderEncode d it) k).
Proof.
  destruct d as [|t]; [by left|]. right.
  unfold PROSE_1DPDE.fwd, unpack. simpl.
  destruct (decide (length (shape t) = 4)) as [Hlen|Hlen].
  - right. by eexists t, _.
  - left. by exists t.
Qed.

(** X1: [fwd] raises before it calls any sub-module exactly when
    [data_input] is not a tensor of the number of dimensions it unpacks,
    five in [PROSE_Fluids] and four in [PROSE_1DPDE]: an [AttributeError]
    for [None], a [ValueError] for a tensor of another rank.  The other
    four arguments are not looked at, and such a call leaves the state of
    the sub-modules as it was. *)
Theorem fwd_rejects_iff_rank d it ot s m :
  (rejects (PROSE_Fluids.fwd d it ot s m) ↔
     ¬ ∃ t, d = VTensor t ∧ length (shape t) = 5) ∧
  (rejects (PROSE_1DPDE.fwd d it ot s m) ↔
     ¬ ∃ t, d = VTensor t ∧ length (shape t) = 4) ∧
  (PROSE_Fluids.fwd d it ot s m = Raise AttributeError ↔ d = VNone) ∧
  (PROSE_1DPDE.fwd d it ot s m = Raise AttributeError ↔ d = VNone) ∧
  (PROSE_Fluids.fwd d it ot s m = Raise ValueError ↔
     ∃ t, d = VTensor t ∧ length (shape t) ≠ 5) ∧
  (PROSE_1DPDE.fwd d it ot s m = Raise ValueError ↔
     ∃ t, d = VTensor t ∧ length (shape t) ≠ 4) ∧
  ∀ W (h : handler Tensor W) w,
    (rejects (PROSE_Fluids.fwd d it ot s m) →
     ∃ e, run h (PROSE_Fluids.fwd d it ot s m) w = (Err e, w) ∧
          trace h (PROSE_Fluids.fwd d it ot s m) w = []) ∧
    (rejects (PROSE_1DPDE.fwd d it ot s m) →
     ∃ e, run h (PROSE_1DPDE.fwd d it ot s m) w = (Err e, w) ∧
          trace h (PROSE_1DPDE.fwd d it ot s m) w = []).
Proof.
  pose proof (fluids_fwd_cases d it ot s m) as HF.
  pose proof (pde_fwd_cases d it ot s m) as HP.
  split; [|split; [|split; [|split; [|split; [|split]]]]].
  - unfold rejects.
    destruct HF as [[-> ->]|[(t & -> & Hlen & ->)|(t & k & -> & Hlen & ->)]].
    + split; [|by eauto]. by intros _ (t & ? & _).
    + split; [|by eauto]. intros _ (t' & [= <-] & ?). done.
    + split; [by intros [e ?]|]. intros []. eauto.
  - unfold rejects.
    destruct HP as [[-> ->]|[(t & -> & Hlen & ->)|(t & k & -> & Hlen & ->)]].
    + split; [|by eauto]. by intros _ (t & ? & _).
    + split; [|by eauto]. intros _ (t' & [= <-] & ?). done.
    + split; [by intros [e ?]|]. intros []. eauto.
  - destruct HF as [[-> ->]|[(t & -> & Hlen & ->)|(t & k & -> & Hlen & ->)]];
      by split.
  - destruct HP as [[-> ->]|[(t & -> & Hlen & ->)|(t & k & -> & Hlen & ->)]];
      by split.
  - destruct HF as [[-> ->]|[(t & -> & Hlen & ->)|(t & k & -> & Hlen & ->)]].
    + split; [done|]. by intros (t & ? & _).
    + split; [|done]. eauto.
    + split; [done|]. intros (t' & [= <-] & ?). done.
  - destruct HP as [[-> ->]|[(t & -> & Hlen & ->)|(t & k & -> & Hlen & ->)]].
    + split; [done|]. by intros (t & ? & _).
    + split; [|done]. eauto.
    + split; [done|]. intros (t' & [= <-] & ?). done.
  - intros W h w. split; intros [e ->]; by exists e.
Qed.

(** X2: no [data_input] is taken by both wrappers: whatever the other
    arguments, [PROSE_Fluids.fwd] or [PROSE_1DPDE.fwd] raises on it before
    any sub-module is called. *)
Theorem no_data_input_for_both d it ot s m it' ot' s' m' :
  rejects (PROSE_Fluids.fwd d it ot s m) ∨
  rejects (PROSE_1DPDE.fwd d it' ot' s' m').
Proof.
  unfold rejects.
  destruct (fluids_fwd_cases d it ot s m)
    as [[-> ->]|[(t & -> & Hlen & ->)|(t & k & -> & Hlen & _)]];
    [by eauto..|].
  right.
  destruct (pde_fwd_cases (VTensor t) it' ot' s' m')
    as [[? ?]|[(t' & [= <-] & Hlen' & ->)|(t' & k' & [= <-] & Hlen' & _)]];
    [done|by eauto|]. congruence.
Qed.

End rejection.

(** ** Where the exceptions of a pass come from *)

Section errors.
Context {Tensor : Type} `{!TensorLike Tensor} {W : Type}.
Context (h : handler Tensor W).
Implicit Types (d it ot s m : value Tensor) (w : W).

Ltac next_answer :=
  match goal with
  | |- context [h ?X ?c ?w] =>
      let E := fresh "E" in
      destruct (h X c w) as [[?x|?x] ?w] eqn:E; simpl
  | |- context [shape ?x !! 1] =>
      let E := fresh "E" in
      destruct (shape x !! 1) eqn:E; simpl
  | |- context [let '(_, _) := ?x in _] => destruct x; simpl
  end.

(** X3: the embedding must have a second dimension.  When
    [embedder.encode] returns a tensor of fewer than two dimensions,
    [data_input.size(1)] raises an [IndexError]: the pass ends there, after
    this one call, in the state the embedder left, and the data encoder is
    not called. *)
Theorem embedding_without_length_raises d it ot s m w t e w1 :
  h _ (EmbedderEncode d it) w = (Ok e, w1) →
  shape e !! 1 = None →
  d = VTensor t →
  (length (shape t) = 5 →
   run h (PROSE_Fluids.fwd d it ot s m) w = (Err IndexError, w1) ∧
   trace h (PROSE_Fluids.fwd d it ot s m) w =
     [Ev (EmbedderEncode d it) (Ok e)]) ∧
  (length (shape t) = 4 →
   run h (PROSE_1DPDE.fwd d it ot s m) w = (Err IndexError, w1) ∧
   trace h (PROSE_1DPDE.fwd d it ot s m) w =
     [Ev (EmbedderEncode d it) (Ok e)]).
Proof.
  intros He Hsz ->.
  unfold PROSE_Fluids.fwd, PROSE_1DPDE.fwd, size_at, unpack. simpl.
  split; intros Hlen; rewrite decide_True by done; simpl;
    rewrite He; simpl; by rewrite Hsz.
Qed.

(** X4: the wrappers raise nothing in place of a sub-module.  An exception
    of a pass is (a) the [AttributeError] or [ValueError] of the unpacking
    of [data_input.size()], with no call made and the state unchanged,
    (b) the [IndexError] of [size(1)] on an embedding without a second
    dimension, after the call of [embedder.encode] alone, or (c) the very
    exception raised by the sub-module called last. *)
Theorem fwd_exception_origin d it ot s m w e w' :
  (run h (PROSE_Fluids.fwd d it ot s m) w = (Err e, w') →
   error_origin 5 d it (trace h (PROSE_Fluids.fwd d it ot s m) w) e w w') ∧
  (run h (PROSE_1DPDE.fwd d it ot s m) w = (Err e, w') →
   error_origin 4 d it (trace h (PROSE_1DPDE.fwd d it ot s m) w) e w w').
Proof.
  unfold error_origin, last_error. split.
  - unfold PROSE_Fluids.fwd, size_at, unpack.
    destruct d as [|t]; simpl.
    { intros [= <- <-]. left. eauto 10. }
    case_decide as Hlen; simpl.
    2: { intros [= <- <-]. left. split; [done|]. split; [done|].
         right. eauto. }
    repeat next_answer; intros [= <- <-]; right; eauto.
  - unfold PROSE_1DPDE.fwd, size_at, unpack.
    destruct d as [|t]; simpl.
    { intros [= <- <-]. left. eauto 10. }
    case_decide as Hlen; simpl.
    2: { intros [= <- <-]. left. split; [done|]. split; [done|].
         right. eauto. }
    repeat next_answer; intros [= <- <-]; right; eauto.
Qed.

End errors.

(** ** Which keyword arguments [fwd] takes *)

Section binding.
Context {Tensor : Type} `{!TensorLike Tensor}.
Implicit Types kwargs : gmap string (value Tensor).

Lemma required_bound kwargs :
  fwd_required ⊆ dom kwargs ↔
  is_Some (kwargs !! "data_input") ∧ is_Some (kwargs !! "input_times") ∧
  is_Some (kwargs !! "output_times") ∧ is_Some (kwargs !! "symbol_input").
Proof.
  unfold fwd_required. rewrite <- !elem_of_dom. split.
  - intros Hsub. repeat split; apply Hsub; set_solver.
  - intros (? & ? & ? & ?) k Hk.
    repeat (apply elem_of_union in Hk as [Hk|Hk]);
      apply elem_of_singleton in Hk; by subst.
Qed.

Lemma bind_kwargs_ok_iff kwargs :
  (∃ d it ot s m, bind_kwargs kwargs = Ret (d, it, ot, s, m)) ↔
  dom kwargs ⊆ fwd_params ∧ fwd_required ⊆ dom kwargs.
Proof.
  rewrite required_bound. unfold bind_kwargs. split.
  - intros (d & it & ot & s & m & Hb). case_decide; [|done].
    destruct (kwargs !! "data_input"), (kwargs !! "input_times"),
      (kwargs !! "output_times"), (kwargs !! "symbol_input"); done.
  - intros [Hdom ([d ->] & [it ->] & [ot ->] & [s ->])].
    rewrite decide_True by done. by eauto 6.
Qed.

(** X5: a call of [fwd] by keywords, and so [forward] in mode ["fwd"] or
    ["generate"], raises a [TypeError] exactly when the keywords do not fit
    the signature: one of [data_input], [input_times], [output_times],
    [symbol_input] is missing, or a keyword is none of the five
    parameters.  It does so in both wrappers alike and before any
    sub-module is called; when the keywords fit, the call is [fwd] on the
    bound values. *)
Theorem fwd_kw_type_error_iff kwargs :
  (PROSE_Fluids.fwd_kw kwargs = Raise TypeError ↔
     ¬ (dom kwargs ⊆ fwd_params ∧ fwd_required ⊆ dom kwargs)) ∧
  (PROSE_1DPDE.fwd_kw kwargs = Raise TypeError ↔
     ¬ (dom kwargs ⊆ fwd_params ∧ fwd_required ⊆ dom kwargs)) ∧
  (PROSE_Fluids.forward "generate" kwargs = Raise TypeError ↔
     PROSE_1DPDE.forward "fwd" kwargs = Raise TypeError) ∧
  (dom kwargs ⊆ fwd_params ∧ fwd_required ⊆ dom kwargs →
   ∃ d it ot s,
     kwargs !! "data_input" = Some d ∧ kwargs !! "input_times" = Some it ∧
     kwargs !! "output_times" = Some ot ∧
     kwargs !! "symbol_input" = Some s ∧
     PROSE_Fluids.fwd_kw kwargs =
       PROSE_Fluids.fwd d it ot s
         (default VNone (kwargs !! "symbol_padding_mask")) ∧
     PROSE_1DPDE.fwd_kw kwargs =
       PROSE_1DPDE.fwd d it ot s
         (default VNone (kwargs !! "symbol_padding_mask"))).
Proof.
  assert (PROSE_Fluids.fwd_kw kwargs = Raise TypeError ↔
     ¬ (dom kwargs ⊆ fwd_params ∧ fwd_required ⊆ dom kwargs)) as HF.
  { rewrite <- bind_kwargs_ok_iff. unfold PROSE_Fluids.fwd_kw.
    destruct (bind_kwargs_cases kwargs) as [Hb|(d & it & ot & s & m & Hb)];
      rewrite Hb.
    - split; [|done]. by intros _ (? & ? & ? & ? & ? & ?).
    - split; [|intros []; by eauto 6]. simpl. intros Hfwd.
      destruct (fluids_fwd_cases d it ot s m)
        as [[_ Hc]|[(? & _ & _ & Hc)|(? & ? & _ & _ & Hc)]];
        by rewrite Hc in Hfwd. }
  assert (PROSE_1DPDE.fwd_kw kwargs = Raise TypeError ↔
     ¬ (dom kwargs ⊆ fwd_params ∧ fwd_required ⊆ dom kwargs)) as HP.
  { rewrite <- bind_kwargs_ok_iff. unfold PROSE_1DPDE.fwd_kw.
    destruct (bind_kwargs_cases kwargs) as [Hb|(d & it & ot & s & m & Hb)];
      rewrite Hb.
    - split; [|done]. by intros _ (? & ? & ? & ? & ? & ?).
    - split; [|intros []; by eauto 6]. simpl. intros Hfwd.
      destruct (pde_fwd_cases d it ot s m)
        as [[_ Hc]|[(? & _ & _ & Hc)|(? & ? & _ & _ & Hc)]];
        by rewrite Hc in Hfwd. }
  split; [exact HF|]. split; [exact HP|]. split.
  - change (PROSE_Fluids.forward "generate" kwargs)
      with (PROSE_Fluids.fwd_kw kwargs).
    change (PROSE_1DPDE.forward "fwd" kwargs)
      with (PROSE_1DPDE.fwd_kw kwargs).
    by rewrite HF, HP.
  - intros [Hdom Hreq].
    apply required_bound in Hreq as ([d Hd] & [it Hit] & [ot Hot] & [s Hs]).
    exists d, it, ot, s. repeat (split; [done|]).
    unfold PROSE_Fluids.fwd_kw, PROSE_1DPDE.fwd_kw.
    by rewrite (bind_kwargs_bound kwargs d it ot s).
Qed.

End binding.

(** ** The report of the trainable parameters *)

Section report.
Local Open Scope list_scope.
Implicit Types (l : list ascii) (ps : list parameter).

Lemma foldl_add_shift (a : N) (ns : list N) :
  foldl N.add a ns = (a + foldl N.add 0 ns)%N.
Proof.
  revert a. induction ns as [|n ns IH]; intros a; simpl; [lia|].
  rewrite (IH (a + n)%N), (IH (0 + n)%N). lia.
Qed.

Lemma trainable_cons p ps :
  trainable (p :: ps) =
    ((if requires_grad p then numel p else 0) + trainable ps)%N.
Proof.
  unfold trainable. rewrite filter_cons.
  destruct (requires_grad p).
  - rewrite decide_True by done. rewrite fmap_cons. cbn [foldl].
    rewrite foldl_add_shift. lia.
  - rewrite decide_False by (by intros []). lia.
Qed.

Lemma trainable_app ps qs :
  trainable (ps ++ qs) = (trainable ps + trainable qs)%N.
Proof.
  induction ps as [|p ps IH]; [done|].
  rewrite <- app_comm_cons, !trainable_cons, IH. lia.
Qed.

Lemma trainable_perm ps qs : ps ≡ₚ qs → trainable ps = trainable qs.
Proof.
  induction 1 as [|x l l' _ IH|x y l|l l' l'' _ IH1 _ IH2].
  - done.
  - by rewrite !trainable_cons, IH.
  - rewrite !trainable_cons. lia.
  - congruence.
Qed.

Lemma trainable_frozen ps :
  Forall (λ p, requires_grad p = false) ps → trainable ps = 0%N.
Proof.
  induction 1 as [|x l Hx _ IH]; [done|].
  by rewrite trainable_cons, Hx, IH.
Qed.

(** X6: [summary] counts the elements of the trained parameters only.
    The count of a module is additive over its parameters, a parameter with
    [requires_grad] off adds nothing wherever it stands, the order of the
    parameters does not matter, and a module whose parameters are all
    frozen counts 0. *)
Theorem trainable_counts_trained_only ps qs p :
  trainable (ps ++ p :: qs) =
    ((if requires_grad p then numel p else 0) + trainable (ps ++ qs))%N ∧
  (requires_grad p = false → trainable (ps ++ p :: qs) = trainable (ps ++ qs)) ∧
  (ps ≡ₚ qs → trainable ps = trainable qs) ∧
  (Forall (λ p, requires_grad p = false) ps → trainable ps = 0%N).
Proof.
  assert (trainable (ps ++ p :: qs) =
    ((if requires_grad p then numel p else 0) + trainable (ps ++ qs))%N) as Hadd.
  { rewrite !trainable_app, trainable_cons. lia. }
  split; [exact Hadd|]. split; [|split].
  - intros Hp. rewrite Hadd, Hp. lia.
  - apply trainable_perm.
  - apply trainable_frozen.
Qed.

(** Induction over a list three elements at a time. *)
Lemma list_ind_3 (P : list ascii → Prop) :
  P [] → (∀ a, P [a]) → (∀ a b, P [a; b]) →
  (∀ a b c l, P l → P (a :: b :: c :: l)) →
  ∀ l, P l.
Proof.
  intros H0 H1 H2 H3 l.
  assert (P l ∧ (∀ a, P (a :: l)) ∧ ∀ a b, P (a :: b :: l)) as [? _];
    [|done].
  induction l as [|x l (IH0 & IH1 & IH2)]; [done|].
  split; [apply IH1|]. split; [intros; apply IH2|].
  intros a b. by apply H3.
Qed.

Lemma ungroup_group l : ungroup_thousands (group_thousands l) = l.
Proof.
  induction l as [| | |a b c l IH] using list_ind_3; try done.
  destruct l as [|x l]; [done|].
  change (a :: b :: c :: ungroup_thousands (group_thousands (x :: l)) =
          a :: b :: c :: x :: l).
  by rewrite IH.
Qed.

Lemma group_thousands_Forall (P : ascii → Prop) l :
  P ","%char → Forall P l → Forall P (group_thousands l).
Proof.
  intros Hc. induction l as [| | |a b c l IH] using list_ind_3; try done.
  intros Hl. destruct l as [|x l]; [done|].
  change (group_thousands (a :: b :: c :: x :: l))
    with (a :: b :: c :: ","%char :: group_thousands (x :: l)).
  inversion Hl as [|? ? ? Hl1]; subst.
  inversion Hl1 as [|? ? ? Hl2]; subst.
  inversion Hl2 as [|? ? ? Hl3]; subst.
  repeat constructor; try done. by apply IH.
Qed.

Global Instance format_thousands_inj : Inj (=) (=) format_thousands.
Proof.
  intros n1 n2 Heq. unfold format_thousands in Heq.
  apply (f_equal list_ascii_of_string) in Heq.
  rewrite !list_ascii_of_string_of_list_ascii in Heq.
  apply (f_equal (@rev ascii)) in Heq. rewrite !rev_involutive in Heq.
  apply (f_equal ungroup_thousands) in Heq. rewrite !ungroup_group in Heq.
  apply (f_equal (@rev ascii)) in Heq. rewrite !rev_involutive in Heq.
  apply (f_equal string_of_list_ascii) in Heq.
  rewrite !string_of_list_ascii_of_string in Heq.
  by apply (inj pretty) in Heq.
Qed.

Lemma chars_app (s1 s2 : string) :
  list_ascii_of_string (s1 +:+ s2) =
    list_ascii_of_string s1 ++ list_ascii_of_string s2.
Proof.
  induction s1 as [|a s1 IH]; [done|].
  change (a :: list_ascii_of_string (s1 +:+ s2) =
          a :: (list_ascii_of_string s1 ++ list_ascii_of_string s2)).
  by rewrite IH.
Qed.

(** The digits of a number are no line breaks. *)
Lemma pretty_N_go_Forall (P : ascii → Prop) (x : N) (s : string) :
  (∀ k, P (pretty_N_char k)) →
  Forall P (list_ascii_of_string s) →
  Forall P (list_ascii_of_string (pretty_N_go x s)).
Proof.
  intros HP. revert s.
  induction (N.lt_wf_0 x) as [x _ IH]; intros s Hs.
  destruct (decide (x = 0%N)) as [->|Hx]; [by rewrite pretty_N_go_0|].
  rewrite pretty_N_go_step by lia.
  apply IH; [apply N.div_lt; lia|]. simpl. by constructor.
Qed.

Lemma format_thousands_no_newline (n : N) :
  Forall (λ c, c ≠ "010"%char) (list_ascii_of_string (format_thousands n)).
Proof.
  unfold format_thousands. rewrite list_ascii_of_string_of_list_ascii.
  apply Forall_rev, group_thousands_Forall; [done|]. apply Forall_rev.
  unfold pretty, pretty_N. case_decide.
  - by repeat constructor.
  - apply pretty_N_go_Forall; [|done].
    intros k. unfold pretty_N_char. by repeat case_match.
Qed.

End report.

Section report_lines.
Local Open Scope list_scope.
Implicit Types (l r cur : list ascii) (s : string).

Lemma string_app_assoc (s1 s2 s3 : string) :
  (s1 +:+ s2) +:+ s3 = s1 +:+ (s2 +:+ s3).
Proof.
  induction s1 as [|a s1 IH]; [done|].
  change (String a ((s1 +:+ s2) +:+ s3) = String a (s1 +:+ (s2 +:+ s3))).
  by rewrite IH.
Qed.

Lemma split_lines_app cur l r :
  Forall (λ c, c ≠ "010"%char) l →
  split_lines cur (l ++ "010"%char :: r) =
    string_of_list_ascii (rev cur ++ l) :: split_lines [] r.
Proof.
  intros Hl. revert cur.
  induction Hl as [|c l Hc _ IH]; intros cur; simpl.
  - by rewrite app_nil_r.
  - rewrite decide_False by done. rewrite IH. simpl.
    by rewrite <- app_assoc.
Qed.

Lemma split_lines_last cur l :
  Forall (λ c, c ≠ "010"%char) l →
  split_lines cur l = [string_of_list_ascii (rev cur ++ l)].
Proof.
  intros Hl. revert cur.
  induction Hl as [|c l Hc _ IH]; intros cur; simpl.
  - by rewrite app_nil_r.
  - rewrite decide_False by done. rewrite IH. simpl.
    by rewrite <- app_assoc.
Qed.

Lemma lines_cons s (rest : string) :
  Forall (λ c, c ≠ "010"%char) (list_ascii_of_string s) →
  lines (s +:+ newline +:+ rest) = s :: lines rest.
Proof.
  intros Hs. unfold lines. rewrite !chars_app.
  change (list_ascii_of_string newline ++ list_ascii_of_string rest)
    with ("010"%char :: list_ascii_of_string rest).
  rewrite split_lines_app by done. simpl.
  by rewrite string_of_list_ascii_of_string.
Qed.

Lemma lines_single s :
  Forall (λ c, c ≠ "010"%char) (list_ascii_of_string s) →
  lines s = [s].
Proof.
  intros Hs. unfold lines. rewrite split_lines_last by done. simpl.
  by rewrite string_of_list_ascii_of_string.
Qed.

(** A line of the report: a tab, the label padded to a column, the count. *)
Lemma report_line_no_newline (label : string) (n : N) :
  Forall (λ c, c ≠ "010"%char) (list_ascii_of_string label) →
  Forall (λ c, c ≠ "010"%char)
    (list_ascii_of_string (tab +:+ label +:+ format_thousands n)).
Proof.
  intros Hl. rewrite !chars_app. apply Forall_app. split.
  - by repeat constructor.
  - apply Forall_app. split; [done|]. apply format_thousands_no_newline.
Qed.

Lemma report_line_inj (label : string) (n1 n2 : N) :
  tab +:+ label +:+ format_thousands n1 =
    tab +:+ label +:+ format_thousands n2 →
  n1 = n2.
Proof.
  intros Heq. apply (inj (String.app tab)) in Heq.
  apply (inj (String.app label)) in Heq. by apply (inj format_thousands).
Qed.

Lemma fluids_summary_lines self :
  lines (PROSE_Fluids.summary self) =
    [ "";
      tab +:+ "Embedder:        " +:+
        format_thousands (trainable (PROSE_Fluids.embedder self));
      tab +:+ "Data Encoder:    " +:+
        format_thousands (trainable (PROSE_Fluids.data_encoder self));
      tab +:+ "Data Decoder:    " +:+
        format_thousands (trainable (PROSE_Fluids.data_decoder self)) ].
Proof.
  set (l1 := tab +:+ "Embedder:        " +:+ _).
  set (l2 := tab +:+ "Data Encoder:    " +:+ _).
  set (l3 := tab +:+ "Data Decoder:    " +:+ _).
  assert (PROSE_Fluids.summary self =
    "" +:+ newline +:+ (l1 +:+ newline +:+ (l2 +:+ newline +:+ l3))) as ->.
  { unfold PROSE_Fluids.summary, l1, l2, l3.
    by rewrite !string_app_assoc. }
  rewrite lines_cons by done.
  rewrite 2!lines_cons, lines_single;
    [done|apply report_line_no_newline; by repeat constructor..].
Qed.

Lemma pde_summary_lines self :
  lines (PROSE_1DPDE.summary self) =
    [ "";
      tab +:+ "Embedder:        " +:+
        format_thousands (trainable (PROSE_1DPDE.embedder self));
      tab +:+ "Data Encoder:    " +:+
        format_thousands (trainable (PROSE_1DPDE.data_encoder self));
      tab +:+ "Symbol Encoder:  " +:+
        format_thousands (trainable (PROSE_1DPDE.symbol_encoder self));
      tab +:+ "Fusion:          " +:+
        format_thousands (trainable (PROSE_1DPDE.fusion self));
      tab +:+ "Data Decoder:    " +:+
        format_thousands (trainable (PROSE_1DPDE.data_decoder self)) ].
Proof.
  set (l1 := tab +:+ "Embedder:        " +:+ _).
  set (l2 := tab +:+ "Data Encoder:    " +:+ _).
  set (l3 := tab +:+ "Symbol Encoder:  " +:+ _).
  set (l4 := tab +:+ "Fusion:          " +:+ _).
  set (l5 := tab +:+ "Data Decoder:    " +:+ _).
  assert (PROSE_1DPDE.summary self =
    "" +:+ newline +:+ (l1 +:+ newline +:+ (l2 +:+ newline +:+
      (l3 +:+ newline +:+ (l4 +:+ newline +:+ l5))))) as ->.
  { unfold PROSE_1DPDE.summary, l1, l2, l3, l4, l5.
    by rewrite !string_app_assoc. }
  rewrite lines_cons by done.
  rewrite 4!lines_cons, lines_single;
    [done|apply report_line_no_newline; by repeat constructor..].
Qed.

(** X7: the text of [summary] is an empty first line followed by one line
    for each sub-module, in the order embedder, data encoder, (1D only:
    symbol encoder, fusion,) data decoder, each made of a tab, the label
    and the count with thousands separators; the text does not end with a
    line break, and no count spills over a line. *)
Theorem summary_lines :
  (∀ self,
     lines (PROSE_Fluids.summary self) =
       [ "";
         tab +:+ "Embedder:        " +:+
           format_thousands (trainable (PROSE_Fluids.embedder self));
         tab +:+ "Data Encoder:    " +:+
           format_thousands (trainable (PROSE_Fluids.data_encoder self));
         tab +:+ "Data Decoder:    " +:+
           format_thousands (trainable (PROSE_Fluids.data_decoder self)) ]) ∧
  (∀ self,
     lines (PROSE_1DPDE.summary self) =
       [ "";
         tab +:+ "Embedder:        " +:+
           format_thousands (trainable (PROSE_1DPDE.embedder self));
         tab +:+ "Data Encoder:    " +:+
           format_thousands (trainable (PROSE_1DPDE.data_encoder self));
         tab +:+ "Symbol Encoder:  " +:+
           format_thousands (trainable (PROSE_1DPDE.symbol_encoder self));
         tab +:+ "Fusion:          " +:+
           format_thousands (trainable (PROSE_1DPDE.fusion self));
         tab +:+ "Data Decoder:    " +:+
           format_thousands (trainable (PROSE_1DPDE.data_decoder self)) ]).
Proof. split; [apply fluids_summary_lines|apply pde_summary_lines]. Qed.

(** X8: the text of [summary] shows the counts without loss: two models
    have the same summary exactly when each of their sub-modules has the
    same number of trained elements (three sub-modules in [PROSE_Fluids],
    five in [PROSE_1DPDE]). *)
Theorem summary_eq_iff_counts :
  (∀ a b,
     PROSE_Fluids.summary a = PROSE_Fluids.summary b ↔
     trainable (PROSE_Fluids.embedder a) =
       trainable (PROSE_Fluids.embedder b) ∧
     trainable (PROSE_Fluids.data_encoder a) =
       trainable (PROSE_Fluids.data_encoder b) ∧
     trainable (PROSE_Fluids.data_decoder a) =
       trainable (PROSE_Fluids.data_decoder b)) ∧
  (∀ a b,
     PROSE_1DPDE.summary a = PROSE_1DPDE.summary b ↔
     trainable (PROSE_1DPDE.embedder a) =
       trainable (PROSE_1DPDE.embedder b) ∧
     trainable (PROSE_1DPDE.data_encoder a) =
       trainable (PROSE_1DPDE.data_encoder b) ∧
     trainable (PROSE_1DPDE.symbol_encoder a) =
       trainable (PROSE_1DPDE.symbol_encoder b) ∧
     trainable (PROSE_1DPDE.fusion a) = trainable (PROSE_1DPDE.fusion b) ∧
     trainable (PROSE_1DPDE.data_decoder a) =
       trainable (PROSE_1DPDE.data_decoder b)).
Proof.
  split; intros a b; split.
  - intros Heq. apply (f_equal lines) in Heq.
    rewrite !fluids_summary_lines in Heq.
    pose proof (f_equal (.!! 1) Heq) as H1.
    pose proof (f_equal (.!! 2) Heq) as H2.
    pose proof (f_equal (.!! 3) Heq) as H3.
    cbn [lookup list_lookup] in H1, H2, H3.
    apply (inj Some), report_line_inj in H1.
    apply (inj Some), report_line_inj in H2.
    by apply (inj Some), report_line_inj in H3.
  - intros (H1 & H2 & H3). unfold PROSE_Fluids.summary.
    by rewrite H1, H2, H3.
  - intros Heq. apply (f_equal lines) in Heq.
    rewrite !pde_summary_lines in Heq.
    pose proof (f_equal (.!! 1) Heq) as H1.
    pose proof (f_equal (.!! 2) Heq) as H2.
    pose proof (f_equal (.!! 3) Heq) as H3.
    pose proof (f_equal (.!! 4) Heq) as H4.
    pose proof (f_equal (.!! 5) Heq) as H5.
    cbn [lookup list_lookup] in H1, H2, H3, H4, H5.
    apply (inj Some), report_line_inj in H1.
    apply (inj Some), report_line_inj in H2.
    apply (inj Some), report_line_inj in H3.
    apply (inj Some), report_line_inj in H4.
    by apply (inj Some), report_line_inj in H5.
  - intros (H1 & H2 & H3 & H4 & H5). unfold PROSE_1DPDE.summary.
    by rewrite H1, H2, H3, H4, H5.
Qed.

End report_lines.

(** ** Further runs on the sample inputs *)

Section more_sample_runs.
Import Sample.

Lemma fwd_rejects_iff_rank_witness :
  rejects (PROSE_1DPDE.fwd field2d input_times output_times symbol_input
             VNone) ∧
  PROSE_Fluids.fwd field1d input_times output_times symbol_input VNone =
    Raise ValueError ∧
  PROSE_Fluids.fwd (Tensor:=shape_tensor) VNone input_times output_times
    symbol_input VNone = Raise AttributeError.
Proof.
  split; [|split].
  - apply (fwd_rejects_iff_rank field2d input_times output_times
             symbol_input VNone).
    intros (t & [= <-] & Hlen). discriminate Hlen.
  - apply (fwd_rejects_iff_rank field1d input_times output_times
             symbol_input VNone).
    eexists. split; [reflexivity|]. discriminate.
  - by apply (fwd_rejects_iff_rank (Tensor:=shape_tensor) VNone input_times
                output_times symbol_input VNone).
Defined.

Lemma embedding_without_length_raises_witness :
  run vector_modules
    (PROSE_Fluids.fwd field2d input_times output_times symbol_input VNone) 0 =
    (Err IndexError, 1) ∧
  run vector_modules
    (PROSE_1DPDE.fwd field1d input_times output_times symbol_input VNone) 0 =
    (Err IndexError, 1).
Proof.
  split.
  - apply (embedding_without_length_raises vector_modules field2d
             input_times output_times symbol_input VNone 0
             (ShapeOnly [2; 5; 4; 4; 3]) (ShapeOnly [3]) 1);
      reflexivity.
  - apply (embedding_without_length_raises vector_modules field1d
             input_times output_times symbol_input VNone 0
             (ShapeOnly [2; 5; 4; 3]) (ShapeOnly [3]) 1);
      reflexivity.
Defined.

Lemma fwd_exception_origin_witness :
  error_origin 5 field2d VNone
    (trace modules2d
       (PROSE_Fluids.fwd field2d VNone output_times symbol_input VNone) 0)
    AttributeError 0 1 ∧
  error_origin 4 field1d input_times
    (trace modules1d
       (PROSE_1DPDE.fwd field1d input_times output_times VNone VNone) 0)
    AttributeError 0 3.
Proof.
  split.
  - apply (fwd_exception_origin modules2d field2d VNone output_times
             symbol_input VNone 0 AttributeError 1).
    reflexivity.
  - apply (fwd_exception_origin modules1d field1d input_times output_times
             VNone VNone 0 AttributeError 3).
    reflexivity.
Defined.

Lemma fwd_kw_type_error_iff_witness :
  PROSE_1DPDE.fwd_kw (<["symbol_lengths" := VNone]> (kwargs field1d)) =
    Raise TypeError ∧
  PROSE_Fluids.fwd_kw (delete "input_times" (kwargs field2d)) =
    Raise TypeError ∧
  PROSE_Fluids.fwd_kw (kwargs field2d) =
    PROSE_Fluids.fwd field2d input_times output_times symbol_input VNone.
Proof.
  split; [|split].
  - destruct (fwd_kw_type_error_iff
                (<["symbol_lengths" := VNone]> (kwargs field1d)))
      as (_ & HP & _).
    apply HP. intros [Hdom _].
    apply (bool_decide_pack
             (dom (<["symbol_lengths" := VNone]> (kwargs field1d))
                ⊆ fwd_params)) in Hdom.
    vm_compute in Hdom. exact Hdom.
  - destruct (fwd_kw_type_error_iff (delete "input_times" (kwargs field2d)))
      as (HF & _).
    apply HF. intros [_ Hreq].
    apply (bool_decide_pack
             (fwd_required ⊆ dom (delete "input_times" (kwargs field2d))))
      in Hreq.
    vm_compute in Hreq. exact Hreq.
  - destruct (fwd_kw_type_error_iff (kwargs field2d)) as (_ & _ & _ & Hfit).
    destruct Hfit as (d & it & ot & s & Hd & Hit & Hot & Hs & HF & _).
    + split; [apply sample_kwargs_dom|].
      apply (bool_decide_unpack (fwd_required ⊆ dom (kwargs field2d))).
      vm_compute. exact I.
    + rewrite HF. by simplify_eq.
Defined.

Lemma trainable_counts_trained_only_witness :
  trainable [Param 1200 true; Param 50 false; Param 7 true] =
    trainable [Param 1200 true; Param 7 true] ∧
  trainable [Param 7 true; Param 1200 true] =
    trainable [Param 1200 true; Param 7 true] ∧
  trainable [Param 50 false; Param 3 false] = 0%N.
Proof.
  split; [|split].
  - by apply (trainable_counts_trained_only [Param 1200 true] [Param 7 true]
                (Param 50 false)).
  - apply (trainable_counts_trained_only [Param 7 true; Param 1200 true]
             [Param 1200 true; Param 7 true] (Param 0 false)).
    apply perm_swap.
  - apply (trainable_counts_trained_only [Param 50 false; Param 3 false] []
             (Param 0 false)).
    by repeat constructor.
Defined.

Lemma summary_eq_iff_counts_witness :
  PROSE_Fluids.summary fluids_modules =
    PROSE_Fluids.summary
      {| PROSE_Fluids.embedder := [Param 600 true; Param 600 true];
         PROSE_Fluids.data_encoder := [Param 9 false];
         PROSE_Fluids.data_decoder := [Param 1000001 true] |}.
Proof.
  apply summary_eq_iff_counts. by repeat split.
Defined.

End more_sample_runs.
